(** * pyalint: a shallow embedding of [pyalint.py] and its specification

    The script discovers workflow files, runs [yamllint] and [actionlint]
    on each one as a subprocess, classifies the captured text and returns
    an exit code.  Everything the script reads from outside (command line,
    file system, configuration document, search path, subprocess outcomes)
    is a field of [Host]; a query of the file system answers or raises.
    The library functions whose exact output is irrelevant to the control
    flow ([argparse], [json.loads], [json.dumps], [repr], [str(Path(..))])
    are fields of [Runtime]: [parse_args] returns a namespace or exits,
    [json.loads] returns a value, raises [JSONDecodeError] or raises another
    exception.  Effects are a writer of [event]s (lines printed and
    subprocesses started) over an exception result.

    Text is modelled as [string], the UTF-8 bytes of a Python [str].
    [lower] changes the ASCII letters only: a UTF-8 sequence of a non-ASCII
    character holds no ASCII byte and no non-ASCII character lower-cases to
    one of the letters e, r, o, so the test ["error" in s.lower()] is the
    same on these bytes as on the code points.

    Values are those of JSON and of YAML: [None], booleans, integers,
    floats, strings, lists, dicts, and the objects of other classes the
    YAML loader builds (dates, byte strings, sets), which [json.dumps]
    turns down.  The keys of a dict are strings: a document with a key of
    another type is outside the model.  [print] always succeeds, and the
    only exceptions are [Exception]s and [SystemExit]. *)

From Stdlib Require Import Bool List ZArith Ascii String.
From Stdlib Require Import Numbers.DecimalString Floats.PrimFloat.
Import ListNotations.

Local Open Scope list_scope.
Local Open Scope string_scope.

(* ------------------------------------------------------------------ *)
(** ** Text operations used by the script *)

Module PyStr.

(** One character of [str.lower()], on the ASCII range. *)
Definition lower_ascii (c : ascii) : ascii :=
  let n := nat_of_ascii c in
  if andb (Nat.leb 65 n) (Nat.leb n 90) then ascii_of_nat (n + 32) else c.

(** [s.lower()]. *)
Fixpoint lower (s : string) : string :=
  match s with
  | EmptyString => EmptyString
  | String c r => String (lower_ascii c) (lower r)
  end.

(** [sub in s]: substring test. *)
Fixpoint contains (sub s : string) : bool :=
  if prefix sub s then true
  else match s with
       | EmptyString => false
       | String _ r => contains sub r
       end.

(** A continuation byte of a UTF-8 sequence (10xxxxxx). *)
Definition is_cont (c : ascii) : bool :=
  let n := nat_of_ascii c in andb (Nat.leb 128 n) (Nat.leb n 191).

(** The characters of a text, one string per code point: what iterating
    over a [str] yields. *)
Fixpoint chars (s : string) : list string :=
  match s with
  | EmptyString => []
  | String c r =>
      match chars r, r with
      | g :: gs, String d _ =>
          if is_cont d then String c g :: gs
          else String c EmptyString :: g :: gs
      | _, _ => [String c EmptyString]
      end
  end.

(** [str.isspace] on one character, given as its UTF-8 bytes: U+0009 to
    U+000D, U+001C to U+0020, U+0085, U+00A0, U+1680, U+2000 to U+200A,
    U+2028, U+2029, U+202F, U+205F and U+3000. *)
Definition is_space (ch : string) : bool :=
  match map nat_of_ascii (list_ascii_of_string ch) with
  | [n] => orb (andb (Nat.leb 9 n) (Nat.leb n 13)) (andb (Nat.leb 28 n) (Nat.leb n 32))
  | [194; n] => orb (Nat.eqb n 133) (Nat.eqb n 160)
  | [225; 154; 128] => true
  | [226; 128; n] =>
      orb (andb (Nat.leb 128 n) (Nat.leb n 138))
          (orb (Nat.eqb n 168) (orb (Nat.eqb n 169) (Nat.eqb n 175)))
  | [226; 129; 159] => true
  | [227; 128; 128] => true
  | _ => false
  end.

(** The characters left after the leading white space. *)
Fixpoint drop_spaces (l : list string) : list string :=
  match l with
  | [] => []
  | ch :: r => if is_space ch then drop_spaces r else l
  end.

(** [s.strip()]: the text without its leading and trailing white space. *)
Definition strip (s : string) : string :=
  String.concat "" (rev (drop_spaces (rev (drop_spaces (chars s))))).

(** The text holds white space only (or nothing). *)
Definition blank (s : string) : bool := forallb is_space (chars s).

(** Truth value of a [str]: non-empty. *)
Definition nonempty (s : string) : bool :=
  match s with EmptyString => false | String _ _ => true end.

(** [sep.join(parts)] on strings. *)
Fixpoint join (sep : string) (parts : list string) : string :=
  match parts with
  | [] => ""
  | [p] => p
  | p :: rest => p ++ sep ++ join sep rest
  end.

(** Decimal text of an integer, as [str(n)] and [f"{n}"] give it. *)
Definition of_Z (z : Z) : string := NilZero.string_of_int (Z.to_int z).

Definition of_nat (n : nat) : string := NilZero.string_of_uint (Nat.to_uint n).

(** The capital of an ASCII letter; other characters are unchanged. *)
Definition upper_ascii (c : ascii) : ascii :=
  let n := nat_of_ascii c in
  if andb (Nat.leb 97 n) (Nat.leb n 122) then ascii_of_nat (n - 32) else c.

(** [casing_of w p]: [w] is the word [p] written in some letter-casing,
    each character being the one of [p] or its capital. *)
Inductive casing_of : string -> string -> Prop :=
| casing_nil : casing_of EmptyString EmptyString
| casing_cons c d w p :
    c = d \/ c = upper_ascii d ->
    casing_of w p -> casing_of (String c w) (String d p).

(** The text [s] contains the word [p] in some letter-casing. *)
Definition mentions (p s : string) : Prop :=
  exists pre w post, s = pre ++ w ++ post /\ casing_of w p.

End PyStr.

(* ------------------------------------------------------------------ *)
(** ** Python values: what [yaml.safe_load] and [json.loads] build *)

#[local] Set Warnings "-register-all".

Inductive pyval : Type :=
| VNone
| VBool (b : bool)
| VInt (z : Z)
| VFloat (f : float)
| VStr (s : string)
| VList (l : list pyval)
| VDict (d : list (string * pyval))
| VObject (cls : string) (truth : bool) (elements : option (list pyval)).
  (* an object of another class ([datetime.date], [bytes], [set]): the name
     of the class as the interpreter's messages give it, its truth value,
     and the elements an iteration over it yields when it can be iterated *)

(** A [dict] in insertion order; keys are the strings the script reads. *)
Definition dict : Type := list (string * pyval).

(** [bool(v)]: the truth value an [if v:] tests. *)
Definition truthy (v : pyval) : bool :=
  match v with
  | VNone => false
  | VBool b => b
  | VInt z => negb (Z.eqb z 0)
  | VFloat f => negb (PrimFloat.eqb f PrimFloat.zero)
  | VStr s => PyStr.nonempty s
  | VList l => match l with [] => false | _ :: _ => true end
  | VDict d => match d with [] => false | _ :: _ => true end
  | VObject _ t _ => t
  end.

(** Truth value of an optional string: [None] and [''] are false. *)
Definition truthy_opt (o : option string) : bool :=
  match o with
  | Some s => PyStr.nonempty s
  | None => false
  end.

(** The name of the type of [v], as it appears in the interpreter's
    messages. *)
Definition type_name (v : pyval) : string :=
  match v with
  | VNone => "NoneType"
  | VBool _ => "bool"
  | VInt _ => "int"
  | VFloat _ => "float"
  | VStr _ => "str"
  | VList _ => "list"
  | VDict _ => "dict"
  | VObject cls _ _ => cls
  end.

(** [json.dumps] accepts the value: it holds no object of another class. *)
Fixpoint serializable (v : pyval) : bool :=
  match v with
  | VList l => forallb serializable l
  | VDict d => forallb (fun kv => serializable (snd kv)) d
  | VObject _ _ _ => false
  | _ => true
  end.

(** [d.get(k)]. *)
Fixpoint dict_get (k : string) (d : dict) : option pyval :=
  match d with
  | [] => None
  | (k', v) :: r => if String.eqb k k' then Some v else dict_get k r
  end.

(** [d[k] = v]: the value is replaced in place when the key is there,
    else the entry is appended. *)
Fixpoint dict_set (k : string) (v : pyval) (d : dict) : dict :=
  match d with
  | [] => [(k, v)]
  | (k', v') :: r =>
      if String.eqb k k' then (k', v) :: r else (k', v') :: dict_set k v r
  end.

(** [{**a, **b}]: the entries of [a], then those of [b] written over them. *)
Definition dict_merge (a b : dict) : dict :=
  fold_left (fun acc kv => dict_set (fst kv) (snd kv) acc) b a.

(* ------------------------------------------------------------------ *)
(** ** Exceptions, events and the effect monad *)

Inductive exn : Type :=
| CalledProcessError (returncode : Z) (cmd : list pyval) (stdout stderr : string)
| Exception (msg : string)   (* any other [Exception]; [msg] is [str(e)] *)
| SystemExit (code : Z).

(** What a run does that can be observed from outside. *)
Inductive event : Type :=
| Print (line : string)            (* one [print] call *)
| Subprocess (cmd : list pyval).   (* one [subprocess.run] call *)

(** A computation: its result or the exception it raises, and the events it
    produced up to there. *)
Definition Py (A : Type) : Type := (exn + A) * list event.

Definition ret {A : Type} (a : A) : Py A := (inr a, []).

Definition raise {A : Type} (e : exn) : Py A := (inl e, []).

Definition bind {A B : Type} (m : Py A) (k : A -> Py B) : Py B :=
  match m with
  | (inl e, t) => (inl e, t)
  | (inr a, t) => let (r, t') := k a in (r, (t ++ t')%list)
  end.

Notation "x <- m ;; k" := (bind m (fun x => k))
  (at level 61, m at next level, right associativity).
Notation "m ;;; k" := (bind m (fun _ => k))
  (at level 61, right associativity).

(** A pure step that may raise. *)
Definition lift {A : Type} (r : exn + A) : Py A := (r, []).

Definition print (line : string) : Py unit := (inr tt, [Print line]).

(** [try: m except ...: h]; [h e = None] when no clause matches [e], which
    then propagates. *)
Definition try_except {A : Type} (m : Py A) (h : exn -> option (Py A)) : Py A :=
  match m with
  | (inl e, t) =>
      match h e with
      | Some k => let (r, t') := k in (r, (t ++ t')%list)
      | None => (inl e, t)
      end
  | (inr a, t) => (inr a, t)
  end.

Definition result {A : Type} (m : Py A) : exn + A := fst m.

Definition trace {A : Type} (m : Py A) : list event := snd m.

(** The run made no [subprocess.run] call. *)
Definition no_subprocess (t : list event) : Prop :=
  forall cmd, ~ In (Subprocess cmd) t.

(** The line [s] was printed. *)
Definition printed (s : string) (t : list event) : Prop := In (Print s) t.

(* ------------------------------------------------------------------ *)
(** ** The world outside the script *)

(** The [Namespace] of lines 118-123. *)
Record Args : Type := {
  debug : bool;
  verbose : bool;
  json : bool;
  file : option string;
  config : option string
}.

(** How [parser.parse_args()] ends (line 123): with the [Namespace], or by
    leaving the process with status 0 after the help text, or with status 2
    after a usage error. *)
Inductive parsed : Type :=
| Namespace (args : Args)
| HelpExit
| UsageExit.

(** How [json.loads] ends: with the value, with [json.JSONDecodeError], or
    with another exception ([RecursionError] on a deeply nested text,
    [ValueError] on an integer literal over the digit limit), [msg] being
    [str(e)]. *)
Inductive json_result : Type :=
| JsonValue (v : pyval)
| JsonDecodeError
| JsonRaised (msg : string).

(** Library functions of the interpreter. *)
Record Runtime : Type := {
  json_loads : string -> json_result;   (* [json.loads(s)] *)
  json_dumps : pyval -> string;
    (* [json.dumps(v, indent=2)] for a value it accepts *)
  dumps_error : pyval -> string;
    (* [str(e)] of the [TypeError] it raises on a value it does not accept *)
  repr : pyval -> string;               (* [repr(v)] *)
  Path : string -> string;              (* [str(Path(s))] *)
  parse_args : list string -> parsed    (* the parser of lines 117-122 *)
}.

(** How a [subprocess.run(..., check=True)] call ends. *)
Inductive outcome : Type :=
| Completed (returncode : Z) (stdout stderr : string)
| Failed (msg : string).   (* the call raised another exception, [str(e) = msg] *)

(** The machine the script runs on. A file-system query answers or raises
    an [OSError], given by its [str(e)]. *)
Record Host : Type := {
  argv : list string;                         (* [sys.argv[1:]] *)
  path_exists : string -> string + bool;      (* [Path.exists()] *)
  path_is_file : string -> string + bool;     (* [Path.is_file()] *)
  rglob : string -> string -> string + list string;
    (* [list(Path(dir).rglob(pattern))] *)
  which : string -> option string;            (* [shutil.which(tool)] *)
  safe_load_file : string -> string + pyval;
    (* [open(path)] then [yaml.safe_load(f)]: the value, or [str(e)] of the
       exception either raised *)
  subprocess_run : list pyval -> outcome
}.

(* ------------------------------------------------------------------ *)
(** ** The script *)

Section Script.

Context (rt : Runtime) (host : Host).

(** The line-feed character. *)
Definition nl : string := String (ascii_of_nat 10) EmptyString.

(** [str(v)], which an f-string applies to a field. *)
Definition py_str (v : pyval) : string :=
  match v with
  | VStr s => s
  | VNone => "None"
  | VBool true => "True"
  | VBool false => "False"
  | VInt z => PyStr.of_Z z
  | _ => repr rt v
  end.

(** [str(e)]. For [CalledProcessError] this is the text for a positive exit
    code; the script never formats that one. *)
Definition exn_str (e : exn) : string :=
  match e with
  | Exception msg => msg
  | CalledProcessError rc cmd _ _ =>
      "Command '" ++ repr rt (VList cmd)
        ++ "' returned non-zero exit status " ++ PyStr.of_Z rc ++ "."
  | SystemExit code => PyStr.of_Z code
  end.

(** [v.get(k, default)]: only a [dict] has the method. *)
Definition method_get (v : pyval) (k : string) (default : pyval) : exn + pyval :=
  match v with
  | VDict d => inr (match dict_get k d with Some x => x | None => default end)
  | _ => inl (Exception ("'" ++ type_name v ++ "' object has no attribute 'get'"))
  end.

(** [v.items()]. *)
Definition method_items (v : pyval) : exn + list (string * pyval) :=
  match v with
  | VDict d => inr d
  | _ => inl (Exception ("'" ++ type_name v ++ "' object has no attribute 'items'"))
  end.

(** The elements [list.extend(v)] appends: those of a list, the characters
    of a string, the keys of a dict, the elements of another iterable. *)
Definition iterate (v : pyval) : exn + list pyval :=
  match v with
  | VList l => inr l
  | VStr s => inr (map VStr (PyStr.chars s))
  | VDict d => inr (map (fun kv => VStr (fst kv)) d)
  | VObject _ _ (Some l) => inr l
  | _ => inl (Exception ("'" ++ type_name v ++ "' object is not iterable"))
  end.

(** The strings of a command, or the [TypeError] of [str.join] at the first
    element that is not a string. *)
Fixpoint str_items (i : nat) (l : list pyval) : exn + list string :=
  match l with
  | [] => inr []
  | VStr s :: r =>
      match str_items (S i) r with
      | inr rest => inr (s :: rest)
      | inl e => inl e
      end
  | v :: _ =>
      inl (Exception ("sequence item " ++ PyStr.of_nat i
                        ++ ": expected str instance, " ++ type_name v ++ " found"))
  end.

(** [sep.join(l)]. *)
Definition str_join (sep : string) (l : list pyval) : exn + string :=
  match str_items 0 l with
  | inr items => inr (PyStr.join sep items)
  | inl e => inl e
  end.

Definition DEFAULT_CONFIG : dict :=
  [ ("yamllint", VDict [ ("rules", VDict [ ("line-length", VStr "disable") ]) ]);
    ("actionlint", VDict [ ("flags", VList []) ]) ].

(** [{**DEFAULT_CONFIG, **v}]: [v] has to be a mapping. *)
Definition merge_over_default (v : pyval) : exn + dict :=
  match v with
  | VDict d => inr (dict_merge DEFAULT_CONFIG d)
  | _ => inl (Exception ("'" ++ type_name v ++ "' object is not a mapping"))
  end.

(** The body of the [try] of [load_config]: open, parse, merge. *)
Definition load_attempt (config_path : string) : exn + dict :=
  match safe_load_file host config_path with
  | inl msg => inl (Exception msg)
  | inr v => merge_over_default v
  end.

(** [load_config]: lines 23-39. The [try] returns the merged dict; the
    handler prints two lines and falls through to the final [return]. *)
Definition load_config (config_path : option string) : Py dict :=
  returned <-
    (match config_path with
     | Some p =>
         if PyStr.nonempty p then
           try_except
             (merged <- lift (load_attempt p) ;; ret (Some merged))
             (fun e =>
                match e with
                | SystemExit _ => None
                | _ =>
                    Some (print ("⚠️ Error loading config file: " ++ exn_str e) ;;;
                          print "Using default configuration." ;;;
                          ret None)
                end)
         else ret None
     | None => ret None
     end) ;;
  match returned with
  | Some merged => ret merged
  | None => ret DEFAULT_CONFIG
  end.

Definition sys_exit {A : Type} (code : Z) : Py A := raise (SystemExit code).

(** [check_dependencies]: lines 41-49. *)
Definition check_dependencies : Py unit :=
  let missing :=
    filter (fun tool => negb (truthy_opt (which host tool)))
           ["yamllint"; "actionlint"] in
  match missing with
  | [] => ret tt
  | _ :: _ =>
      print ("❌ Missing tools: " ++ PyStr.join ", " missing
               ++ ". Please install them before running the script.") ;;;
      sys_exit 1
  end.

(** The answer of a file-system query, or the [OSError] it raises. *)
Definition query {A : Type} (r : string + A) : exn + A :=
  match r with
  | inl msg => inl (Exception msg)
  | inr a => inr a
  end.

(** [find_workflow_files]: line 53. *)
Definition find_workflow_files (directory : string) : exn + list string :=
  match query (rglob host directory "*.yml") with
  | inl e => inl e
  | inr ymls =>
      match query (rglob host directory "*.yaml") with
      | inl e => inl e
      | inr yamls => inr (ymls ++ yamls)%list
      end
  end.

(** [subprocess.run(command, capture_output=True, text=True, check=True)]
    and the read of [result.stdout]. *)
Definition subprocess_run_checked (command : list pyval) : Py string :=
  match subprocess_run host command with
  | Completed rc out err =>
      if Z.eqb rc 0 then (inr out, [Subprocess command])
      else (inl (CalledProcessError rc command out err), [Subprocess command])
  | Failed msg => (inl (Exception msg), [Subprocess command])
  end.

(** The [try] body of [run_command]: lines 69-78. *)
Definition run_command_try (command : list pyval) (verbose : bool) : Py string :=
  (if verbose then
     shown <- lift (str_join " " command) ;;
     print ("🔧 Running: " ++ shown)
   else ret tt) ;;;
  subprocess_run_checked command.

(** [run_command]: lines 55-84. *)
Definition run_command (command : list pyval) (verbose : bool) : Py string :=
  try_except
    (run_command_try command verbose)
    (fun e =>
       match e with
       | CalledProcessError rc _ out err =>
           Some (print ("⚠️ Command failed with exit code " ++ PyStr.of_Z rc) ;;;
                 ret (out ++ err))
       | Exception _ =>
           Some (print ("❌ Unexpected error running command: " ++ exn_str e) ;;;
                 ret ("Error: " ++ exn_str e))
       | SystemExit _ => None
       end).

(** The [rules] mapping [lint_yaml] reads: line 88. *)
Definition yamllint_rules (config : dict) : exn + list (string * pyval) :=
  match method_get (VDict config) "yamllint" (VDict []) with
  | inl e => inl e
  | inr section =>
      match method_get section "rules" (VDict []) with
      | inl e => inl e
      | inr rules => method_items rules
      end
  end.

(** The command of [lint_yaml]: lines 88-95. *)
Definition yamllint_cmd (file_path : string) (config : dict) : exn + list pyval :=
  match yamllint_rules config with
  | inl e => inl e
  | inr items =>
      let rules_str :=
        PyStr.join "," (map (fun kv => fst kv ++ ": " ++ py_str (snd kv)) items) in
      inr [ VStr "yamllint"; VStr "-d";
            VStr ("{extends: default, rules: {" ++ rules_str ++ "}}");
            VStr file_path ]
  end.

(** [lint_yaml]: lines 86-96. *)
Definition lint_yaml (file_path : string) (config : dict) (verbose : bool) : Py string :=
  yamllint_cmd_ <- lift (yamllint_cmd file_path config) ;;
  run_command yamllint_cmd_ verbose.

(** The extra flags [lint_action] reads: line 107. *)
Definition actionlint_flags (config : dict) : exn + list pyval :=
  match method_get (VDict config) "actionlint" (VDict []) with
  | inl e => inl e
  | inr section =>
      match method_get section "flags" (VList []) with
      | inl e => inl e
      | inr flags => iterate flags
      end
  end.

(** The command of [lint_action]: lines 100-108. *)
Definition actionlint_cmd (file_path : string) (config : dict)
  (verbose json_output : bool) : exn + list pyval :=
  let cmd := [VStr "actionlint"] in
  let cmd :=
    if json_output then (cmd ++ [VStr "-format=json"])%list
    else if verbose then (cmd ++ [VStr "-verbose"])%list
    else cmd in
  match actionlint_flags config with
  | inl e => inl e
  | inr flags => inr ((cmd ++ flags) ++ [VStr file_path])%list
  end.

(** [lint_action]: lines 98-109. *)
Definition lint_action (file_path : string) (config : dict)
  (verbose json_output : bool) : Py string :=
  cmd <- lift (actionlint_cmd file_path config verbose json_output) ;;
  run_command cmd verbose.

(** Lines 155-156: the flag after the yamllint output has been looked at. *)
Definition judge_yamllint (yamllint_output : string) (has_errors : bool) : bool :=
  if PyStr.contains "error" (PyStr.lower yamllint_output) then true else has_errors.

(** Lines 160-173: the flag after the actionlint output has been looked at,
    and what is printed on the way. The [except] clause catches
    [JSONDecodeError] only: another exception of [json.loads] goes on. *)
Definition judge_actionlint (json_mode : bool) (actionlint_output : string)
  (has_errors : bool) : Py bool :=
  if json_mode then
    match json_loads rt actionlint_output with
    | JsonValue parsed =>
        let has_errors := if truthy parsed then true else has_errors in
        print (json_dumps rt parsed) ;;;
        ret has_errors
    | JsonDecodeError =>
        print "⚠️ Failed to parse JSON output." ;;;
        print actionlint_output ;;;
        ret true
    | JsonRaised msg => raise (Exception msg)
    end
  else
    print actionlint_output ;;;
    ret (if PyStr.nonempty (PyStr.strip actionlint_output) then true else has_errors).

(** The flag [judge_actionlint] returns when it returns, as a pure function. *)
Definition actionlint_flag (json_mode : bool) (out : string) (h : bool) : bool :=
  if json_mode then
    match json_loads rt out with
    | JsonValue parsed => if truthy parsed then true else h
    | JsonDecodeError => true
    | JsonRaised _ => h
    end
  else if PyStr.nonempty (PyStr.strip out) then true else h.

(** Lines 150-173: the body of the loop over the files. *)
Definition check_file (args : Args) (config : dict) (file_ : string)
  (has_errors : bool) : Py bool :=
  print (nl ++ "📄 Checking: " ++ file_) ;;;
  print "  • yamllint:" ;;;
  yamllint_output <- lint_yaml file_ config (verbose args || debug args) ;;
  print yamllint_output ;;;
  let has_errors := judge_yamllint yamllint_output has_errors in
  print "  • actionlint:" ;;;
  actionlint_output <-
    lint_action file_ config (verbose args || debug args) (json args) ;;
  judge_actionlint (json args) actionlint_output has_errors.

(** Lines 149-173: the loop, threading [has_errors]. *)
Fixpoint check_files (args : Args) (config : dict) (files : list string)
  (has_errors : bool) : Py bool :=
  match files with
  | [] => ret has_errors
  | file_ :: rest =>
      has_errors <- check_file args config file_ has_errors ;;
      check_files args config rest has_errors
  end.

(** Lines 132-143: the files to check, or the code of an early [return]. *)
Definition discover (args : Args) : Py (Z + list string) :=
  if truthy_opt (file args) then
    let target := Path rt (match file args with Some f => f | None => "" end) in
    there <- lift (query (path_exists host target)) ;;
    regular <-
      (if there : bool then lift (query (path_is_file host target)) else ret false) ;;
    if negb there || negb regular then
      print ("❌ Specified file does not exist: " ++ target) ;;;
      ret (inl 1%Z)
    else ret (inr [target])
  else
    let workflows_dir := Path rt ".github/workflows" in
    there <- lift (query (path_exists host workflows_dir)) ;;
    if negb there then
      print "⚠️ .github/workflows directory not found." ;;;
      ret (inl 0%Z)
    else
      found <- lift (find_workflow_files workflows_dir) ;;
      ret (inr found).

(** Lines 126-127: the dump of debug mode. [json.dumps] raises [TypeError]
    on a configuration that holds an object of another class. *)
Definition dump_config (config : dict) : Py unit :=
  if serializable (VDict config) then
    print ("Configuration: " ++ json_dumps rt (VDict config))
  else raise (Exception (dumps_error rt (VDict config))).

(** Lines 145-180: what [main] does with the outcome of the discovery. *)
Definition conclude (args : Args) (config : dict) (found : Z + list string) : Py Z :=
  match found with
  | inl code => ret code
  | inr [] =>
      print "⚠️ No workflow files found." ;;;
      ret 0%Z
  | inr files_to_check =>
      has_errors <- check_files args config files_to_check false ;;
      if has_errors then
        print (nl ++ "❌ Checks completed with errors.") ;;;
        ret 1%Z
      else
        print (nl ++ "✅ All checks completed successfully.") ;;;
        ret 0%Z
  end.

(** [main] from line 125 on, for the [Namespace] [args] that [parse_args]
    returned at line 123. *)
Definition main (args : Args) : Py Z :=
  config_ <- load_config (config args) ;;
  (if debug args then dump_config config_ else ret tt) ;;;
  found <- discover args ;;
  conclude args config_ found.

(** Lines 182-184 for a command line that parses to [args]. *)
Definition script (args : Args) : Py unit :=
  check_dependencies ;;;
  code <- main args ;;
  sys_exit code.

(** The exit status of the process: the argument of [sys.exit], and 1 when
    another exception reaches the top level. *)
Definition exit_status {A : Type} (m : Py A) : Z :=
  match result m with
  | inl (SystemExit code) => code
  | inl _ => 1%Z
  | inr _ => 0%Z
  end.

(** The exit code [main] hands to [sys.exit], 1 when it raises instead. *)
Definition exit_code (m : Py Z) : Z :=
  match result m with
  | inr code => code
  | inl (SystemExit code) => code
  | inl _ => 1%Z
  end.

(** Both linters can be started from this configuration: the sections the
    script reads have the shape it expects. *)
Definition config_usable (config : dict) : bool :=
  match yamllint_rules config, actionlint_flags config with
  | inr _, inr _ => true
  | _, _ => false
  end.

(** The configuration [main] works with: what [load_config] returns. *)
Definition resolved_config (config_path : option string) : dict :=
  match result (load_config config_path) with
  | inr c => c
  | inl _ => DEFAULT_CONFIG
  end.

(** The dump of debug mode, if asked for, does not raise. *)
Definition dump_passes (args : Args) : bool :=
  negb (debug args) || serializable (VDict (resolved_config (config args))).

(** What [main] has at line 145, when it gets there: the code of an early
    [return] or the list [files_to_check]. (The empty list when the dump or
    the discovery raised before.) *)
Definition files_to_check (args : Args) : Z + list string :=
  if dump_passes args then
    match result (discover args) with
    | inr found => found
    | inl _ => inr []
    end
  else inr [].

(** What [main] prints before the discovery. *)
Definition preamble (args : Args) : list event :=
  (trace (load_config (config args))
   ++ (if debug args && serializable (VDict (resolved_config (config args)))
       then [Print ("Configuration: "
                      ++ json_dumps rt (VDict (resolved_config (config args))))]
       else []))%list.

(** The text the yamllint step of a file works with: what [lint_yaml]
    returns at line 153. *)
Definition yamllint_text (args : Args) (config : dict) (file_ : string) : string :=
  match result (lint_yaml file_ config (verbose args || debug args)) with
  | inr text => text
  | inl _ => ""
  end.

(** The text the actionlint step of a file works with: what [lint_action]
    returns at line 159. *)
Definition actionlint_text (args : Args) (config : dict) (file_ : string) : string :=
  match result (lint_action file_ config (verbose args || debug args) (json args)) with
  | inr text => text
  | inl _ => ""
  end.

(** One of the two steps of a file sets the flag. *)
Definition file_flagged (args : Args) (config : dict) (file_ : string) : bool :=
  judge_yamllint (yamllint_text args config file_) false
  || actionlint_flag (json args) (actionlint_text args config file_) false.

(** The last line [main] prints after the loop: lines 175-180. *)
Definition verdict (has_errors : bool) : string :=
  if has_errors then nl ++ "❌ Checks completed with errors."
  else nl ++ "✅ All checks completed successfully.".

(** The flag the script adds to the actionlint command: lines 101-104. *)
Definition mode_flag (verbose json_output : bool) : list pyval :=
  if json_output then [VStr "-format=json"]
  else if verbose then [VStr "-verbose"]
  else [].

(** The actionlint step of a file gets past [json.loads]: text mode, or
    [json.loads] returns or raises [JSONDecodeError] on the actionlint
    text. *)
Definition json_step_returns (args : Args) (config : dict) (file_ : string) : bool :=
  negb (json args)
  || match json_loads rt (actionlint_text args config file_) with
     | JsonRaised _ => false
     | _ => true
     end.

(** [main], lines 111-180: the command line is parsed first. *)
Definition main_entry : Py Z :=
  match parse_args rt (argv host) with
  | Namespace args => main args
  | HelpExit => sys_exit 0
  | UsageExit => sys_exit 2
  end.

(** Lines 182-184: the program, from the command line of the host. *)
Definition program : Py unit :=
  check_dependencies ;;;
  code <- main_entry ;;
  sys_exit code.

(** Both linters are on the search path: [check_dependencies] passes. *)
Definition tools_present : bool :=
  forallb (fun tool => truthy_opt (which host tool)) ["yamllint"; "actionlint"].

End Script.

(* ------------------------------------------------------------------ *)
(** ** Side conditions of the statements *)

(** The two facts about [json.loads] the statements below rely on: the text
    [[]] is the empty array, and the empty text is not a JSON document. *)
Record json_standard (rt : Runtime) : Prop := {
  loads_empty_array : json_loads rt "[]" = JsonValue (VList []);
  loads_empty_text : json_loads rt "" = JsonDecodeError
}.

(** The keys of a [dict] are distinct. *)
Definition dict_wf (d : dict) : Prop := NoDup (map fst d).

(** The commands of the [subprocess.run] calls of a run, in order. *)
Definition subprocess_calls (t : list event) : list (list pyval) :=
  flat_map (fun e => match e with Subprocess cmd => [cmd] | Print _ => [] end) t.

(** Every element of a command is a string. *)
Definition all_strings (l : list pyval) : bool :=
  forallb (fun v => match v with VStr _ => true | _ => false end) l.

(** A captured text is displayed: printed as it is or, in JSON mode when it
    parses, printed re-serialised. *)
Definition displayed (rt : Runtime) (json_mode : bool) (text : string)
  (t : list event) : Prop :=
  printed text t
  \/ (json_mode = true
      /\ exists parsed,
           json_loads rt text = JsonValue parsed
           /\ printed (json_dumps rt parsed) t).

(* ------------------------------------------------------------------ *)
(** ** Concrete runtimes and hosts for the examples *)

Module Sample.

(** The number of opening brackets a text starts with. *)
Fixpoint leading_brackets (s : string) : nat :=
  match s with
  | String "[" r => S (leading_brackets r)
  | _ => 0
  end.

(** [n] opening brackets. *)
Fixpoint brackets (n : nat) : string :=
  match n with
  | 0 => ""
  | S m => String "[" (brackets m)
  end.

(** A runtime that reads the handful of JSON texts of the examples, and
    gives up with [RecursionError] on a text nested a thousand arrays
    deep. *)
Definition loads (s : string) : json_result :=
  if Nat.leb 1000 (leading_brackets s) then
    JsonRaised
      "maximum recursion depth exceeded while decoding a JSON array from a unicode string"
  else if String.eqb s "[]" then JsonValue (VList [])
  else if String.eqb s "[{}]" then JsonValue (VList [VDict []])
  else if String.eqb s "{}" then JsonValue (VDict [])
  else if String.eqb s "null" then JsonValue VNone
  else if String.eqb s "0" then JsonValue (VInt 0)
  else if String.eqb s "false" then JsonValue (VBool false)
  else JsonDecodeError.

Definition dumps (v : pyval) : string :=
  match v with
  | VList [] => "[]"
  | VDict [] => "{}"
  | VNone => "null"
  | VInt 0 => "0"
  | VBool false => "false"
  | _ => "[...]"
  end.

Definition plain : Args :=
  {| debug := false; verbose := false; json := false;
     file := None; config := None |}.

(** The command line of the examples: no option is [plain], [-h] asks for
    the help, anything else is a usage error. *)
Definition parse (argv : list string) : parsed :=
  match argv with
  | [] => Namespace plain
  | ["-h"] => HelpExit
  | _ => UsageExit
  end.

Definition runtime : Runtime :=
  {| json_loads := loads;
     json_dumps := dumps;
     dumps_error := fun _ => "Object of type date is not JSON serializable";
     repr := fun _ => "<value>";
     Path := fun s => if String.eqb s "" then "." else s;
     parse_args := parse |}.

(** A host: the regular files [present] beside the current directory, the
    workflow files [workflows] found under the workflow directory, which
    exists or not, the configuration document [document] at every path, and
    the outcome [run] of each command. Every file-system query answers. *)
Definition machine (present workflows : list string) (dir_exists : bool)
  (document : string + pyval) (run : list pyval -> outcome) : Host :=
  {| argv := [];
     path_exists := fun p =>
       inr (if String.eqb p ".github/workflows" then dir_exists
            else if String.eqb p "." then true
            else existsb (String.eqb p) present);
     path_is_file := fun p => inr (existsb (String.eqb p) present);
     rglob := fun _ pattern =>
       inr (if String.eqb pattern "*.yml" then workflows else []);
     which := fun tool => Some ("/usr/bin/" ++ tool);
     safe_load_file := fun _ => document;
     subprocess_run := run |}.

(** One outcome for every yamllint command, one for every other command. *)
Definition by_tool (yamllint_outcome actionlint_outcome : outcome)
  (cmd : list pyval) : outcome :=
  match cmd with
  | VStr "yamllint" :: _ => yamllint_outcome
  | _ => actionlint_outcome
  end.

(** The outcome [bad] for the yamllint command on the file [f], a clean
    exit without output for every other command. *)
Definition bad_yaml_on (f : string) (bad : outcome) (cmd : list pyval) : outcome :=
  match cmd with
  | [VStr "yamllint"; _; _; VStr g] =>
      if String.eqb f g then bad else Completed 0 "" ""
  | _ => Completed 0 "" ""
  end.

(** The host [h] with the tools [missing] taken off the search path. *)
Definition without_tools (missing : list string) (h : Host) : Host :=
  {| argv := argv h;
     path_exists := path_exists h;
     path_is_file := path_is_file h;
     rglob := rglob h;
     which := fun tool =>
       if existsb (String.eqb tool) missing then None else which h tool;
     safe_load_file := safe_load_file h;
     subprocess_run := subprocess_run h |}.

(** The host [h] where looking at the path [p] raises the [OSError] [msg]. *)
Definition unreadable (p msg : string) (h : Host) : Host :=
  {| argv := argv h;
     path_exists := fun q => if String.eqb q p then inl msg else path_exists h q;
     path_is_file := fun q => if String.eqb q p then inl msg else path_is_file h q;
     rglob := rglob h;
     which := which h;
     safe_load_file := safe_load_file h;
     subprocess_run := subprocess_run h |}.

(** The host [h] started with the command line [line]. *)
Definition started_with (line : list string) (h : Host) : Host :=
  {| argv := line;
     path_exists := path_exists h;
     path_is_file := path_is_file h;
     rglob := rglob h;
     which := which h;
     safe_load_file := safe_load_file h;
     subprocess_run := subprocess_run h |}.

Definition clean : outcome := Completed 0 "" "".

End Sample.

(* ------------------------------------------------------------------ *)
(** ** Facts about the text operations *)

Module PyStrFacts.
Import PyStr.

Lemma lower_app (a b : string) : lower (a ++ b) = lower a ++ lower b.
Proof.
  induction a as [|c a IH]; simpl; [reflexivity | now rewrite IH].
Qed.

Lemma lower_upper_ascii (d : ascii) :
  lower_ascii d = d -> lower_ascii (upper_ascii d) = d.
Proof.
  destruct d as [[] [] [] [] [] [] [] []]; vm_compute; intro H;
    solve [reflexivity | discriminate H].
Qed.

(** A casing of a lower-case word lower-cases to that word. *)
Lemma casing_of_lower (w p : string) :
  casing_of w p -> lower p = p -> lower w = p.
Proof.
  induction 1 as [|c d w p Hc _ IH]; simpl; intro Hp; [reflexivity|].
  injection Hp as Hd Hp'. rewrite (IH Hp'). f_equal.
  destruct Hc as [-> | ->]; [assumption | now apply lower_upper_ascii].
Qed.

Lemma prefix_app (sub post : string) : prefix sub (sub ++ post) = true.
Proof.
  induction sub as [|c sub IH]; simpl.
  - now destruct post.
  - destruct (ascii_dec c c) as [_|n]; [exact IH | now elim n].
Qed.

Lemma contains_cons (sub : string) (c : ascii) (s : string) :
  contains sub (String c s)
  = if prefix sub (String c s) then true else contains sub s.
Proof. reflexivity. Qed.

Lemma contains_skip (sub pre s : string) :
  contains sub s = true -> contains sub (pre ++ s) = true.
Proof.
  intro H. induction pre as [|c pre IH]; [exact H|].
  change (String c pre ++ s) with (String c (pre ++ s)).
  rewrite contains_cons, IH. now destruct (prefix sub (String c (pre ++ s))).
Qed.

Lemma contains_here (sub post : string) : contains sub (sub ++ post) = true.
Proof.
  destruct sub as [|c sub].
  - now destruct post.
  - change (String c sub ++ post) with (String c (sub ++ post)).
    rewrite contains_cons.
    change (String c (sub ++ post)) with (String c sub ++ post).
    now rewrite prefix_app.
Qed.

Lemma contains_app (sub pre post : string) :
  contains sub (pre ++ sub ++ post) = true.
Proof. apply contains_skip, contains_here. Qed.

(** A text that holds the word in some casing holds it after [lower]. *)
Lemma mentions_contains_lower (p s : string) :
  lower p = p -> mentions p s -> contains p (lower s) = true.
Proof.
  intros Hp (pre & w & post & -> & Hw).
  rewrite !lower_app, (casing_of_lower w p Hw Hp). apply contains_app.
Qed.

Lemma prefix_split (sub s : string) :
  prefix sub s = true -> exists post, s = sub ++ post.
Proof.
  revert s. induction sub as [|c sub IH]; intros s H.
  - now exists s.
  - destruct s as [|d s]; simpl in H; [discriminate|].
    destruct (ascii_dec c d) as [Hcd|]; [subst d|discriminate].
    destruct (IH s H) as [post Hs]. exists post. simpl. now rewrite <- Hs.
Qed.

(** [contains] is the substring relation. *)
Lemma contains_split (sub s : string) :
  contains sub s = true -> exists pre post, s = pre ++ sub ++ post.
Proof.
  induction s as [|c s IH].
  - change (contains sub "") with (if prefix sub "" then true else false).
    destruct (prefix sub "") eqn:E; [|discriminate].
    intros _. destruct (prefix_split _ _ E) as [post Hs].
    now exists "", post.
  - rewrite contains_cons.
    destruct (prefix sub (String c s)) eqn:E.
    + intros _. destruct (prefix_split _ _ E) as [post Hs]. now exists "", post.
    + intro Hc. destruct (IH Hc) as (pre & post & ->). now exists (String c pre), post.
Qed.

End PyStrFacts.

(* ------------------------------------------------------------------ *)
(** ** Facts about dicts *)

Lemma dict_get_set_same (k : string) (v : pyval) (d : dict) :
  dict_get k (dict_set k v d) = Some v.
Proof.
  induction d as [|[k' v'] d IH]; simpl.
  - now rewrite String.eqb_refl.
  - destruct (String.eqb k k') eqn:E; simpl; rewrite E; [reflexivity | exact IH].
Qed.

Lemma dict_get_set_other (k k' : string) (v : pyval) (d : dict) :
  k <> k' -> dict_get k (dict_set k' v d) = dict_get k d.
Proof.
  intro Hk. induction d as [|[k1 v1] d IH]; simpl.
  - now apply String.eqb_neq in Hk as ->.
  - destruct (String.eqb k' k1) eqn:E; simpl.
    + apply String.eqb_eq in E as <-. now apply String.eqb_neq in Hk as ->.
    + now rewrite IH.
Qed.

Lemma dict_get_absent (k : string) (d : dict) :
  ~ In k (map fst d) -> dict_get k d = None.
Proof.
  induction d as [|[k' v'] d IH]; simpl; intro H; [reflexivity|].
  destruct (String.eqb k k') eqn:E.
  - apply String.eqb_eq in E. elim H. now left.
  - apply IH. intro Hin. apply H. now right.
Qed.

(** A key the override lacks keeps the value of the base. *)
Lemma dict_get_merge_absent (k : string) (a b : dict) :
  dict_get k b = None -> dict_get k (dict_merge a b) = dict_get k a.
Proof.
  unfold dict_merge. revert a.
  induction b as [|[k' v'] b IH]; simpl; intros a H; [reflexivity|].
  destruct (String.eqb k k') eqn:E; [discriminate|].
  rewrite (IH _ H). apply dict_get_set_other. now apply String.eqb_neq.
Qed.

(** A key the override has takes the value of the override. *)
Lemma dict_get_merge_present (k : string) (x : pyval) (a b : dict) :
  dict_wf b -> dict_get k b = Some x -> dict_get k (dict_merge a b) = Some x.
Proof.
  unfold dict_wf, dict_merge. revert a.
  induction b as [|[k' v'] b IH]; simpl; intros a Hwf H; [discriminate|].
  inversion Hwf as [|? ? Hnotin Hwf']; subst.
  destruct (String.eqb k k') eqn:E.
  - apply String.eqb_eq in E as <-. injection H as <-.
    change (fold_left _ b ?acc) with (dict_merge acc b).
    rewrite dict_get_merge_absent by now apply dict_get_absent.
    apply dict_get_set_same.
  - now apply IH.
Qed.

(* ------------------------------------------------------------------ *)
(** ** Facts about computations *)

Lemma result_bind {A B : Type} (m : Py A) (k : A -> Py B) :
  result (bind m k)
  = match result m with inl e => inl e | inr a => result (k a) end.
Proof.
  destruct m as [[e|a] t]; simpl; [reflexivity|]. now destruct (k a).
Qed.

Lemma trace_bind {A B : Type} (m : Py A) (k : A -> Py B) :
  trace (bind m k)
  = (trace m ++ match result m with inl _ => [] | inr a => trace (k a) end)%list.
Proof.
  destruct m as [[e|a] t]; simpl; [now rewrite app_nil_r|]. now destruct (k a).
Qed.

Lemma result_print_bind {B : Type} (s : string) (k : unit -> Py B) :
  result (bind (print s) k) = result (k tt).
Proof. unfold bind, print. now destruct (k tt). Qed.

Lemma trace_print_bind {B : Type} (s : string) (k : unit -> Py B) :
  trace (bind (print s) k) = Print s :: trace (k tt).
Proof. unfold bind, print. now destruct (k tt). Qed.

Lemma py_eta {A : Type} (m : Py A) : m = (result m, trace m).
Proof. now destruct m. Qed.

Lemma no_subprocess_nil : no_subprocess [].
Proof. intros cmd []. Qed.

Lemma no_subprocess_print (s : string) (t : list event) :
  no_subprocess t -> no_subprocess (Print s :: t).
Proof. intros H cmd [E|Hin]; [discriminate | exact (H cmd Hin)]. Qed.

Lemma no_subprocess_app (t u : list event) :
  no_subprocess t -> no_subprocess u -> no_subprocess (t ++ u).
Proof.
  intros Ht Hu cmd Hin. apply in_app_or in Hin as [Hin|Hin];
    [exact (Ht cmd Hin) | exact (Hu cmd Hin)].
Qed.

Create HintDb pyalint.

#[local] Hint Resolve no_subprocess_nil no_subprocess_print no_subprocess_app
  : pyalint.

(* ------------------------------------------------------------------ *)
(** ** Facts about the script *)

Section ScriptFacts.

Context (rt : Runtime) (host : Host).

Lemma str_items_exn (l : list pyval) : forall i e,
  str_items i l = inl e -> exists msg, e = Exception msg.
Proof.
  induction l as [|v l IH]; intros i e H; simpl in H; [discriminate|].
  destruct v; try (injection H as <-; eauto; fail).
  destruct (str_items (S i) l) as [e'|rest] eqn:E; [|discriminate].
  injection H as <-. eauto.
Qed.

Lemma str_join_exn (sep : string) (l : list pyval) (e : exn) :
  str_join sep l = inl e -> exists msg, e = Exception msg.
Proof.
  unfold str_join. destruct (str_items 0 l) as [e'|items] eqn:E; [|discriminate].
  intro H. injection H as <-. eauto using str_items_exn.
Qed.

(** What the [try] body of [run_command] can raise. *)
Lemma run_command_try_exn (cmd : list pyval) (v : bool) (e : exn) :
  result (run_command_try host cmd v) = inl e ->
  (exists msg, e = Exception msg)
  \/ (exists rc out err, e = CalledProcessError rc cmd out err).
Proof.
  unfold run_command_try, subprocess_run_checked. rewrite result_bind.
  destruct v.
  - rewrite result_bind. unfold lift at 1. simpl.
    destruct (str_join " " cmd) as [e'|shown] eqn:E; simpl.
    + intro H. injection H as <-. left. eauto using str_join_exn.
    + destruct (subprocess_run host cmd) as [rc out err|msg];
        [destruct (Z.eqb rc 0)|]; simpl; intro H;
        try discriminate; injection H as <-; eauto 6.
  - simpl. destruct (subprocess_run host cmd) as [rc out err|msg];
      [destruct (Z.eqb rc 0)|]; simpl; intro H;
      try discriminate; injection H as <-; eauto 6.
Qed.

(** [run_command] always returns a text: its handlers catch whatever the
    body raises. *)
Lemma run_command_returns (cmd : list pyval) (v : bool) :
  exists text, result (run_command rt host cmd v) = inr text.
Proof.
  unfold run_command, try_except.
  destruct (run_command_try host cmd v) as [[e|text] t] eqn:E; simpl; [|eauto].
  assert (H : result (run_command_try host cmd v) = inl e) by now rewrite E.
  apply run_command_try_exn in H as [[msg ->] | (rc & out & err & ->)];
    simpl; eauto.
Qed.

Lemma method_get_exn (v : pyval) (k : string) (dflt : pyval) (e : exn) :
  method_get v k dflt = inl e -> exists msg, e = Exception msg.
Proof. destruct v; simpl; intro H; try discriminate; injection H as <-; eauto. Qed.

Lemma yamllint_rules_exn (cfg : dict) (e : exn) :
  yamllint_rules cfg = inl e -> exists msg, e = Exception msg.
Proof.
  unfold yamllint_rules.
  destruct (method_get (VDict cfg) "yamllint" (VDict [])) as [e1|section] eqn:E1.
  - intro H. injection H as <-. eauto using method_get_exn.
  - destruct (method_get section "rules" (VDict [])) as [e2|rules] eqn:E2.
    + intro H. injection H as <-. eauto using method_get_exn.
    + destruct rules; simpl; intro H; try discriminate; injection H as <-; eauto.
Qed.

Lemma actionlint_flags_exn (cfg : dict) (e : exn) :
  actionlint_flags cfg = inl e -> exists msg, e = Exception msg.
Proof.
  unfold actionlint_flags.
  destruct (method_get (VDict cfg) "actionlint" (VDict [])) as [e1|section] eqn:E1.
  - intro H. injection H as <-. eauto using method_get_exn.
  - destruct (method_get section "flags" (VList [])) as [e2|flags] eqn:E2.
    + intro H. injection H as <-. eauto using method_get_exn.
    + destruct flags as [ | | | | | | |cls t [els|]]; simpl; intro H;
        try discriminate; injection H as <-; eauto.
Qed.

Lemma lint_yaml_result (f : string) (cfg : dict) (v : bool) :
  result (lint_yaml rt host f cfg v)
  = match yamllint_cmd rt f cfg with
    | inl e => inl e
    | inr cmd => result (run_command rt host cmd v)
    end.
Proof.
  unfold lint_yaml. rewrite result_bind. unfold lift. simpl.
  now destruct (yamllint_cmd rt f cfg).
Qed.

Lemma lint_action_result (f : string) (cfg : dict) (v j : bool) :
  result (lint_action rt host f cfg v j)
  = match actionlint_cmd f cfg v j with
    | inl e => inl e
    | inr cmd => result (run_command rt host cmd v)
    end.
Proof.
  unfold lint_action. rewrite result_bind. unfold lift. simpl.
  now destruct (actionlint_cmd f cfg v j).
Qed.

(** [lint_yaml] raises only when the configuration has the wrong shape. *)
Lemma lint_yaml_exn (f : string) (cfg : dict) (v : bool) (e : exn) :
  result (lint_yaml rt host f cfg v) = inl e ->
  yamllint_rules cfg = inl e /\ exists msg, e = Exception msg.
Proof.
  rewrite lint_yaml_result. unfold yamllint_cmd.
  destruct (yamllint_rules cfg) as [e'|items] eqn:E.
  - intro H. injection H as <-. eauto using yamllint_rules_exn.
  - destruct (run_command_returns
                [VStr "yamllint"; VStr "-d";
                 VStr ("{extends: default, rules: {"
                         ++ PyStr.join ","
                              (map (fun kv => fst kv ++ ": " ++ py_str rt (snd kv)) items)
                         ++ "}}");
                 VStr f] v) as [text ->].
    discriminate.
Qed.

Lemma lint_action_exn (f : string) (cfg : dict) (v j : bool) (e : exn) :
  result (lint_action rt host f cfg v j) = inl e ->
  actionlint_flags cfg = inl e /\ exists msg, e = Exception msg.
Proof.
  rewrite lint_action_result. unfold actionlint_cmd.
  destruct (actionlint_flags cfg) as [e'|flags] eqn:E.
  - intro H. injection H as <-. eauto using actionlint_flags_exn.
  - match goal with
    | |- result (run_command _ _ ?c _) = _ -> _ =>
        destruct (run_command_returns c v) as [text ->]
    end.
    discriminate.
Qed.

(** With a usable configuration both linters return a text. *)
Lemma lint_yaml_returns (f : string) (cfg : dict) (v : bool) :
  config_usable cfg = true ->
  exists text, result (lint_yaml rt host f cfg v) = inr text.
Proof.
  intro Hu. destruct (result (lint_yaml rt host f cfg v)) as [e|text] eqn:E; [|eauto].
  apply lint_yaml_exn in E as [E _]. unfold config_usable in Hu.
  rewrite E in Hu. discriminate.
Qed.

Lemma lint_action_returns (f : string) (cfg : dict) (v j : bool) :
  config_usable cfg = true ->
  exists text, result (lint_action rt host f cfg v j) = inr text.
Proof.
  intro Hu. destruct (result (lint_action rt host f cfg v j)) as [e|text] eqn:E; [|eauto].
  apply lint_action_exn in E as [E _]. unfold config_usable in Hu.
  rewrite E in Hu. destruct (yamllint_rules cfg); discriminate.
Qed.

(** How the actionlint step of a file ends. *)
Lemma judge_actionlint_result (j : bool) (out : string) (h : bool) :
  result (judge_actionlint rt j out h)
  = match (if j then json_loads rt out else JsonDecodeError) with
    | JsonRaised msg => inl (Exception msg)
    | _ => inr (actionlint_flag rt j out h)
    end.
Proof.
  unfold judge_actionlint, actionlint_flag. destruct j; [|reflexivity].
  now destruct (json_loads rt out).
Qed.

Lemma judge_actionlint_flag (j : bool) (out : string) (h r : bool) :
  result (judge_actionlint rt j out h) = inr r -> r = actionlint_flag rt j out h.
Proof.
  rewrite judge_actionlint_result.
  destruct (if j then json_loads rt out else JsonDecodeError);
    intro H; try discriminate; now injection H.
Qed.

Lemma judge_actionlint_exn (j : bool) (out : string) (h : bool) (e : exn) :
  result (judge_actionlint rt j out h) = inl e ->
  j = true /\ exists msg, json_loads rt out = JsonRaised msg /\ e = Exception msg.
Proof.
  rewrite judge_actionlint_result. destruct j; [|discriminate].
  destruct (json_loads rt out) as [v| |msg]; intro H; try discriminate.
  injection H as <-. eauto.
Qed.

(** When the actionlint step returns, it has displayed the text. *)
Lemma judge_actionlint_displays (j : bool) (out : string) (h r : bool) :
  result (judge_actionlint rt j out h) = inr r ->
  displayed rt j out (trace (judge_actionlint rt j out h)).
Proof.
  unfold judge_actionlint, displayed, printed. destruct j.
  - destruct (json_loads rt out) as [parsed| |msg] eqn:E; simpl; intro H.
    + right. split; [reflexivity|]. exists parsed. auto.
    + left. auto.
    + discriminate.
  - left. simpl. auto.
Qed.

Lemma judge_actionlint_no_subprocess (j : bool) (out : string) (h : bool) :
  no_subprocess (trace (judge_actionlint rt j out h)).
Proof.
  unfold judge_actionlint. destruct j; [destruct (json_loads rt out)|];
    simpl; auto with pyalint.
Qed.

Lemma judge_yamllint_keeps (out : string) : judge_yamllint out true = true.
Proof. unfold judge_yamllint. now destruct (PyStr.contains _ _). Qed.

Lemma actionlint_flag_keeps (j : bool) (out : string) :
  actionlint_flag rt j out true = true.
Proof.
  unfold actionlint_flag. destruct j.
  - destruct (json_loads rt out) as [p| |msg]; [now destruct (truthy p)| |];
      reflexivity.
  - now destruct (PyStr.nonempty _).
Qed.

Lemma check_file_result (args : Args) (cfg : dict) (f : string) (h : bool) :
  result (check_file rt host args cfg f h)
  = match result (lint_yaml rt host f cfg (verbose args || debug args)) with
    | inl e => inl e
    | inr y =>
        match result (lint_action rt host f cfg (verbose args || debug args)
                        (json args)) with
        | inl e => inl e
        | inr a => result (judge_actionlint rt (json args) a (judge_yamllint y h))
        end
    end.
Proof.
  unfold check_file. rewrite !result_print_bind, result_bind.
  destruct (result (lint_yaml _ _ _ _ _)); [reflexivity|].
  rewrite !result_print_bind, result_bind.
  now destruct (result (lint_action _ _ _ _ _ _)).
Qed.

Lemma check_file_trace (args : Args) (cfg : dict) (f : string) (h : bool) :
  trace (check_file rt host args cfg f h)
  = ([Print (nl ++ "📄 Checking: " ++ f); Print "  • yamllint:"]
     ++ trace (lint_yaml rt host f cfg (verbose args || debug args))
     ++ match result (lint_yaml rt host f cfg (verbose args || debug args)) with
        | inl _ => []
        | inr y =>
            [Print y; Print "  • actionlint:"]
            ++ trace (lint_action rt host f cfg (verbose args || debug args)
                        (json args))
            ++ match result (lint_action rt host f cfg
                               (verbose args || debug args) (json args)) with
               | inl _ => []
               | inr a =>
                   trace (judge_actionlint rt (json args) a (judge_yamllint y h))
               end
        end)%list.
Proof.
  unfold check_file. rewrite !trace_print_bind, trace_bind.
  change ([?a; ?b] ++ ?t)%list with (a :: b :: t). do 3 f_equal.
  destruct (result (lint_yaml _ _ _ _ _)); [reflexivity|].
  rewrite !trace_print_bind, trace_bind. reflexivity.
Qed.

Lemma check_files_cons (args : Args) (cfg : dict) (f : string)
  (rest : list string) (h : bool) :
  result (check_files rt host args cfg (f :: rest) h)
  = match result (check_file rt host args cfg f h) with
    | inl e => inl e
    | inr h' => result (check_files rt host args cfg rest h')
    end.
Proof. simpl. apply result_bind. Qed.

Lemma check_files_app (args : Args) (cfg : dict) (pre post : list string) :
  forall h,
    result (check_files rt host args cfg (pre ++ post) h)
    = match result (check_files rt host args cfg pre h) with
      | inl e => inl e
      | inr h' => result (check_files rt host args cfg post h')
      end.
Proof.
  induction pre as [|f pre IH]; intro h; [reflexivity|].
  change ((f :: pre) ++ post)%list with (f :: (pre ++ post))%list.
  rewrite !check_files_cons.
  destruct (result (check_file rt host args cfg f h)); [reflexivity | apply IH].
Qed.

(** One file never clears the flag. *)
Lemma check_file_keeps (args : Args) (cfg : dict) (f : string) (r : bool) :
  result (check_file rt host args cfg f true) = inr r -> r = true.
Proof.
  rewrite check_file_result.
  destruct (result (lint_yaml _ _ _ _ _)); [discriminate|].
  destruct (result (lint_action _ _ _ _ _ _)); [discriminate|].
  intro H. apply judge_actionlint_flag in H.
  now rewrite judge_yamllint_keeps, actionlint_flag_keeps in H.
Qed.

(** The loop never clears the flag. *)
Lemma check_files_keeps (args : Args) (cfg : dict) (files : list string) (r : bool) :
  result (check_files rt host args cfg files true) = inr r -> r = true.
Proof.
  induction files as [|f files IH]; [simpl; congruence|].
  rewrite check_files_cons.
  destruct (result (check_file rt host args cfg f true)) as [e|h'] eqn:E;
    [discriminate|].
  now rewrite (check_file_keeps _ _ _ _ E).
Qed.

(** The loop raises [Exception]s only. *)
Lemma check_files_exn (args : Args) (cfg : dict) (files : list string) :
  forall h e,
    result (check_files rt host args cfg files h) = inl e ->
    exists msg, e = Exception msg.
Proof.
  induction files as [|f files IH]; intros h e; [discriminate|].
  rewrite check_files_cons, check_file_result.
  destruct (result (lint_yaml _ _ _ _ _)) as [e1|y] eqn:E1.
  - intro H. injection H as <-. now apply lint_yaml_exn in E1 as [_ Hm].
  - destruct (result (lint_action _ _ _ _ _ _)) as [e2|a] eqn:E2.
    + intro H. injection H as <-. now apply lint_action_exn in E2 as [_ Hm].
    + destruct (result (judge_actionlint rt (json args) a (judge_yamllint y h)))
        as [e3|h'] eqn:E3.
      * intro H. injection H as <-.
        apply judge_actionlint_exn in E3 as (_ & msg & _ & ->). eauto.
      * apply IH.
Qed.

(** A file whose yamllint text sets the flag leaves the loop with the flag
    set, if the loop returns. *)
Lemma check_files_flagged (args : Args) (cfg : dict) (f out : string)
  (files : list string) :
  In f files ->
  result (lint_yaml rt host f cfg (verbose args || debug args)) = inr out ->
  (forall h, judge_yamllint out h = true) ->
  forall h r, result (check_files rt host args cfg files h) = inr r -> r = true.
Proof.
  intros Hin Hy Hj. induction files as [|g files IH]; [destruct Hin|].
  intros h r. rewrite check_files_cons.
  destruct (result (check_file rt host args cfg g h)) as [e|h'] eqn:E;
    [discriminate|].
  destruct Hin as [->|Hin]; [|now apply IH].
  rewrite check_file_result, Hy in E.
  destruct (result (lint_action _ _ _ _ _ _)); [discriminate|].
  apply judge_actionlint_flag in E.
  rewrite Hj, actionlint_flag_keeps in E. subst h'.
  apply check_files_keeps.
Qed.

Lemma merge_over_default_exn (v : pyval) (e : exn) :
  merge_over_default v = inl e -> exists msg, e = Exception msg.
Proof. destruct v; simpl; intro H; try discriminate; injection H as <-; eauto. Qed.

Lemma load_attempt_exn (p : string) (e : exn) :
  load_attempt host p = inl e -> exists msg, e = Exception msg.
Proof.
  unfold load_attempt. destruct (safe_load_file host p) as [msg|v].
  - intro H. injection H as <-. eauto.
  - apply merge_over_default_exn.
Qed.

(** [load_config] when the [try] body fails. *)
Lemma load_config_fallback (p : string) (e : exn) :
  PyStr.nonempty p = true ->
  load_attempt host p = inl e ->
  load_config rt host (Some p)
  = (inr DEFAULT_CONFIG,
     [Print ("⚠️ Error loading config file: " ++ exn_str rt e);
      Print "Using default configuration."]).
Proof.
  intros Hp He. destruct (load_attempt_exn _ _ He) as [msg ->].
  unfold load_config. rewrite Hp. unfold lift. rewrite He. reflexivity.
Qed.

(** [load_config] when the [try] body succeeds. *)
Lemma load_config_merged (p : string) (merged : dict) :
  PyStr.nonempty p = true ->
  load_attempt host p = inr merged ->
  load_config rt host (Some p) = (inr merged, []).
Proof.
  intros Hp He. unfold load_config. rewrite Hp. unfold lift. rewrite He.
  reflexivity.
Qed.

(** [load_config] without a path, or with an empty one. *)
Lemma load_config_default (o : option string) :
  truthy_opt o = false -> load_config rt host o = (inr DEFAULT_CONFIG, []).
Proof.
  destruct o as [p|]; simpl; [|reflexivity]. intro Hp.
  unfold load_config. now rewrite Hp.
Qed.

(** [load_config] always returns, and starts no subprocess. *)
Lemma load_config_eq (o : option string) :
  load_config rt host o = (inr (resolved_config rt host o), trace (load_config rt host o))
  /\ no_subprocess (trace (load_config rt host o)).
Proof.
  unfold resolved_config.
  destruct (truthy_opt o) eqn:Ho.
  - destruct o as [p|]; [|discriminate]. simpl in Ho.
    destruct (load_attempt host p) as [e|merged] eqn:E.
    + rewrite (load_config_fallback _ _ Ho E). simpl. auto with pyalint.
    + rewrite (load_config_merged _ _ Ho E). simpl. auto with pyalint.
  - rewrite (load_config_default _ Ho). simpl. auto with pyalint.
Qed.

(** The discovery starts no subprocess and raises [Exception]s only. *)
Lemma discover_quiet (args : Args) :
  no_subprocess (trace (discover rt host args))
  /\ (forall e, result (discover rt host args) = inl e -> exists msg, e = Exception msg).
Proof.
  unfold discover, find_workflow_files, query, lift.
  destruct (truthy_opt (file args)).
  - destruct (path_exists host _) as [m|[]]; simpl.
    + split; [auto with pyalint|]. intros e H. injection H as <-. eauto.
    + destruct (path_is_file host _) as [m|[]]; simpl;
        (split; [auto with pyalint|]); intros e H; try discriminate.
      injection H as <-. eauto.
    + split; [auto with pyalint|]. intros e H. discriminate.
  - destruct (path_exists host _) as [m|[]]; simpl.
    + split; [auto with pyalint|]. intros e H. injection H as <-. eauto.
    + destruct (rglob host _ "*.yml") as [m|ymls]; simpl.
      * split; [auto with pyalint|]. intros e H. injection H as <-. eauto.
      * destruct (rglob host _ "*.yaml") as [m|yamls]; simpl;
          (split; [auto with pyalint|]); intros e H; try discriminate.
        injection H as <-. eauto.
    + split; [auto with pyalint|]. intros e H. discriminate.
Qed.

Lemma preamble_no_subprocess (args : Args) : no_subprocess (preamble rt host args).
Proof.
  unfold preamble. apply no_subprocess_app; [apply load_config_eq|].
  destruct (debug args && _)%bool; auto with pyalint.
Qed.

(** [main] is the preamble, then the discovery and what follows from it,
    unless the dump of debug mode raises. *)
Lemma main_unfold (args : Args) :
  main rt host args
  = if dump_passes rt host args then
      (result (found <- discover rt host args ;;
               conclude rt host args (resolved_config rt host (config args)) found),
       (preamble rt host args
        ++ trace (found <- discover rt host args ;;
                  conclude rt host args (resolved_config rt host (config args)) found))%list)
    else
      (inl (Exception (dumps_error rt (VDict (resolved_config rt host (config args))))),
       preamble rt host args).
Proof.
  unfold main, preamble, dump_passes, dump_config.
  destruct (load_config_eq (config args)) as [-> _].
  set (cfg := resolved_config rt host (config args)).
  set (tl := trace (load_config rt host (config args))).
  cbn [bind].
  destruct (debug args); cbn [negb orb andb].
  - destruct (serializable (VDict cfg)); cbn [print raise bind].
    + destruct (found <- discover rt host args ;; conclude rt host args cfg found)
        as [r t]. cbn [result trace fst snd]. now rewrite <- app_assoc.
    + reflexivity.
  - cbn [ret bind].
    destruct (found <- discover rt host args ;; conclude rt host args cfg found)
      as [r t]. cbn [result trace fst snd]. now rewrite !app_nil_r.
Qed.

(** When the dump of debug mode raises, [main] stops there. *)
Lemma main_dump_fails (args : Args) :
  dump_passes rt host args = false ->
  main rt host args
  = (inl (Exception (dumps_error rt (VDict (resolved_config rt host (config args))))),
     preamble rt host args).
Proof. intro H. now rewrite main_unfold, H. Qed.

(** What [files_to_check] says when it is not the empty list: [main] got to
    line 145 with it. *)
Lemma files_to_check_found (args : Args) (found : Z + list string) :
  files_to_check rt host args = found ->
  found <> inr [] ->
  dump_passes rt host args = true /\ result (discover rt host args) = inr found.
Proof.
  unfold files_to_check. destruct (dump_passes rt host args); [|congruence].
  destruct (result (discover rt host args)); [congruence|].
  intros -> _. auto.
Qed.

(** [main] once the discovery has given something to go on with. *)
Lemma main_found (args : Args) (found : Z + list string) :
  files_to_check rt host args = found ->
  found <> inr [] ->
  main rt host args
  = (result (conclude rt host args (resolved_config rt host (config args)) found),
     (preamble rt host args
      ++ trace (discover rt host args)
      ++ trace (conclude rt host args (resolved_config rt host (config args)) found))%list).
Proof.
  intros Hf Hne. destruct (files_to_check_found args found Hf Hne) as [Hd Hr].
  rewrite main_unfold, Hd. rewrite result_bind, trace_bind, Hr. reflexivity.
Qed.

(** The loop of [main] and the line after it. *)
Lemma conclude_loop (args : Args) (cfg : dict) (f : string) (fs : list string) :
  conclude rt host args cfg (inr (f :: fs))
  = (match result (check_files rt host args cfg (f :: fs) false) with
     | inl e => inl e
     | inr b => inr (if b : bool then 1%Z else 0%Z)
     end,
     (trace (check_files rt host args cfg (f :: fs) false)
      ++ match result (check_files rt host args cfg (f :: fs) false) with
         | inl _ => []
         | inr b => [Print (verdict b)]
         end)%list).
Proof.
  unfold conclude.
  destruct (check_files rt host args cfg (f :: fs) false) as [[e|[]] t];
    cbn [bind result trace fst snd]; [now rewrite app_nil_r | reflexivity..].
Qed.

Lemma main_early (args : Args) (code : Z) :
  files_to_check rt host args = inl code ->
  main rt host args
  = (inr code, (preamble rt host args ++ trace (discover rt host args))%list).
Proof.
  intro H. rewrite (main_found args (inl code) H) by discriminate.
  simpl. now rewrite app_nil_r.
Qed.

(** The program when a linter is missing: exit status 1, nothing started. *)
Lemma script_tools_missing (args : Args) :
  tools_present host = false ->
  exit_status (script rt host args) = 1%Z
  /\ no_subprocess (trace (script rt host args)).
Proof.
  unfold tools_present, script, check_dependencies, exit_status. simpl.
  destruct (truthy_opt (which host "yamllint"));
    destruct (truthy_opt (which host "actionlint")); simpl;
    try discriminate; intros _; split; auto with pyalint.
Qed.

(** The program when both linters are there: it is [main] followed by
    [sys.exit]. *)
Lemma script_tools_present (args : Args) :
  tools_present host = true ->
  exit_status (script rt host args) = exit_code (main rt host args)
  /\ trace (script rt host args) = trace (main rt host args).
Proof.
  unfold tools_present, script, check_dependencies, exit_status, exit_code. simpl.
  destruct (truthy_opt (which host "yamllint"));
    destruct (truthy_opt (which host "actionlint")); simpl;
    try discriminate; intros _.
  destruct (main rt host args) as [[e|code] t]; simpl.
  - split; reflexivity.
  - split; [reflexivity | apply app_nil_r].
Qed.

(** When [main] ends with code 1, the program exits with status 1. *)
Lemma script_exit_one (args : Args) :
  exit_code (main rt host args) = 1%Z ->
  exit_status (script rt host args) = 1%Z.
Proof.
  intro H. destruct (tools_present host) eqn:T.
  - now rewrite (proj1 (script_tools_present args T)).
  - apply (script_tools_missing args T).
Qed.

(** The program started with a command line that parses is [script] at the
    arguments it parses to. *)
Lemma program_parsed (args : Args) :
  parse_args rt (argv host) = Namespace args ->
  program rt host = script rt host args.
Proof.
  intro H. unfold program, script, main_entry. now rewrite H.
Qed.

(** The loop left with the flag set decides the run. *)
Lemma main_after_loop (args : Args) (g : string) (files : list string) :
  files_to_check rt host args = inr (g :: files) ->
  (forall r, result (check_files rt host args (resolved_config rt host (config args))
                       (g :: files) false) = inr r -> r = true) ->
  ((exists code, result (main rt host args) = inr code) ->
   result (main rt host args) = inr 1%Z)
  /\ exit_code (main rt host args) = 1%Z.
Proof.
  intros Hf Hr. unfold exit_code.
  rewrite (main_found args _ Hf) by discriminate.
  rewrite conclude_loop. cbn [result fst].
  destruct (result (check_files rt host args _ (g :: files) false)) as [e|r] eqn:E.
  - apply check_files_exn in E as [msg ->].
    split; [intros [code H]; discriminate H | reflexivity].
  - rewrite (Hr r eq_refl). split; reflexivity.
Qed.

(** A file whose yamllint text sets the flag decides the run. *)
Lemma main_flagged (args : Args) (files : list string) (f out : string) :
  files_to_check rt host args = inr files ->
  In f files ->
  result (lint_yaml rt host f (resolved_config rt host (config args))
            (verbose args || debug args)) = inr out ->
  (forall h, judge_yamllint out h = true) ->
  ((exists code, result (main rt host args) = inr code) ->
   result (main rt host args) = inr 1%Z)
  /\ exit_code (main rt host args) = 1%Z.
Proof.
  intros Hf Hin Hy Hj. destruct files as [|g files]; [destruct Hin|].
  apply (main_after_loop args g files Hf).
  intros r. now apply (check_files_flagged args _ f out (g :: files)).
Qed.

(** The text "Error: ..." that [run_command] makes of a failed launch sets
    the yamllint flag. *)
Lemma judge_yamllint_error_prefix (msg : string) (h : bool) :
  judge_yamllint ("Error: " ++ msg) h = true.
Proof.
  reflexivity.
Qed.

Lemma judge_yamllint_mentions (out : string) (h : bool) :
  PyStr.mentions "error" out -> judge_yamllint out h = true.
Proof.
  intro H. unfold judge_yamllint.
  now rewrite (PyStrFacts.mentions_contains_lower "error" out eq_refl H).
Qed.

(** [run_command] on a body that raises [CalledProcessError]. *)
Lemma run_command_nonzero (cmd : list pyval) (v : bool) (rc : Z) (out err : string) :
  subprocess_run host cmd = Completed rc out err ->
  rc <> 0%Z ->
  (v = true -> exists shown, str_join " " cmd = inr shown) ->
  result (run_command rt host cmd v) = inr (out ++ err)
  /\ In (Subprocess cmd) (trace (run_command rt host cmd v))
  /\ printed ("⚠️ Command failed with exit code " ++ PyStr.of_Z rc)
        (trace (run_command rt host cmd v)).
Proof.
  intros Hrun Hrc Hjoin. apply Z.eqb_neq in Hrc.
  unfold run_command, run_command_try, subprocess_run_checked, printed.
  rewrite Hrun, Hrc. destruct v.
  - destruct (Hjoin eq_refl) as [shown ->]. simpl. auto 6.
  - simpl. auto 6.
Qed.

(** [run_command] on a body that raises another exception. *)
Lemma run_command_failed (cmd : list pyval) (v : bool) (msg : string) :
  result (run_command_try host cmd v) = inl (Exception msg) ->
  result (run_command rt host cmd v) = inr ("Error: " ++ msg)
  /\ printed ("❌ Unexpected error running command: " ++ msg)
        (trace (run_command rt host cmd v)).
Proof.
  unfold run_command, try_except, printed.
  destruct (run_command_try host cmd v) as [[e|text] t]; simpl; [|discriminate].
  intro H. injection H as ->. simpl. split; [reflexivity|].
  apply in_or_app. right. now left.
Qed.

(** The yamllint command holds strings only, so [join] accepts it. *)
Lemma yamllint_cmd_joins (f : string) (cfg : dict) (cmd : list pyval) :
  yamllint_cmd rt f cfg = inr cmd -> exists shown, str_join " " cmd = inr shown.
Proof.
  unfold yamllint_cmd. destruct (yamllint_rules cfg); [discriminate|].
  intro H. injection H as <-. unfold str_join. simpl. eauto.
Qed.

(** After a file whose check returns, the loop goes on with the rest. *)
Lemma check_files_continues (args : Args) (cfg : dict) (f : string)
  (rest : list string) (h h' : bool) :
  result (check_file rt host args cfg f h) = inr h' ->
  check_files rt host args cfg (f :: rest) h
  = (result (check_files rt host args cfg rest h'),
     (trace (check_file rt host args cfg f h)
      ++ trace (check_files rt host args cfg rest h'))%list).
Proof.
  simpl. destruct (check_file rt host args cfg f h) as [[e|b] t]; simpl;
    intro H; [discriminate|]. injection H as ->.
  now destruct (check_files rt host args cfg rest h').
Qed.

(** With a usable configuration the texts of a file are what the two
    linters return. *)
Lemma lint_texts (args : Args) (cfg : dict) (f : string) :
  config_usable cfg = true ->
  result (lint_yaml rt host f cfg (verbose args || debug args))
  = inr (yamllint_text rt host args cfg f)
  /\ result (lint_action rt host f cfg (verbose args || debug args) (json args))
     = inr (actionlint_text rt host args cfg f).
Proof.
  intro Hu. unfold yamllint_text, actionlint_text.
  destruct (lint_yaml_returns f cfg (verbose args || debug args) Hu) as [y ->].
  destruct (lint_action_returns f cfg (verbose args || debug args)
              (json args) Hu) as [a ->].
  split; reflexivity.
Qed.

(** The check of a file returns when both commands can be built and the
    JSON step gets past [json.loads]. *)
Lemma check_file_returns (args : Args) (cfg : dict) (f : string) (h : bool) :
  config_usable cfg = true ->
  json_step_returns rt host args cfg f = true ->
  result (check_file rt host args cfg f h)
  = inr (actionlint_flag rt (json args) (actionlint_text rt host args cfg f)
           (judge_yamllint (yamllint_text rt host args cfg f) h)).
Proof.
  intros Hu Hj. destruct (lint_texts args cfg f Hu) as [Hy Ha].
  rewrite check_file_result, Hy, Ha, judge_actionlint_result.
  unfold json_step_returns in Hj.
  destruct (json args); [|reflexivity]. cbn [negb orb] in Hj.
  now destruct (json_loads rt (actionlint_text rt host args cfg f)).
Qed.

Lemma judge_yamllint_or (out : string) (h : bool) :
  judge_yamllint out h = (h || judge_yamllint out false)%bool.
Proof.
  unfold judge_yamllint. destruct (PyStr.contains _ _); [apply eq_sym, orb_true_r|].
  apply eq_sym, orb_false_r.
Qed.

Lemma actionlint_flag_or (j : bool) (out : string) (h : bool) :
  actionlint_flag rt j out h = (h || actionlint_flag rt j out false)%bool.
Proof.
  unfold actionlint_flag. destruct j.
  - destruct (json_loads rt out) as [p| |msg]; [destruct (truthy p)| |];
      now rewrite ?orb_true_r, ?orb_false_r.
  - destruct (PyStr.nonempty _); now rewrite ?orb_true_r, ?orb_false_r.
Qed.

(** The flag after the check of a file that returns. *)
Lemma check_file_flag (args : Args) (cfg : dict) (f : string) (h : bool) :
  config_usable cfg = true ->
  json_step_returns rt host args cfg f = true ->
  result (check_file rt host args cfg f h)
  = inr (h || file_flagged rt host args cfg f)%bool.
Proof.
  intros Hu Hj. rewrite (check_file_returns args cfg f h Hu Hj).
  unfold file_flagged.
  rewrite actionlint_flag_or, judge_yamllint_or.
  now rewrite orb_assoc.
Qed.

(** The flag after the loop, when the check of every file returns. *)
Lemma check_files_flag (args : Args) (cfg : dict) (files : list string) :
  config_usable cfg = true ->
  forallb (json_step_returns rt host args cfg) files = true ->
  forall h,
    result (check_files rt host args cfg files h)
    = inr (h || existsb (file_flagged rt host args cfg) files)%bool.
Proof.
  intro Hu. induction files as [|f files IH]; intros Hj h.
  - simpl. now rewrite orb_false_r.
  - cbn [forallb] in Hj. apply andb_true_iff in Hj as [Hf Hrest].
    rewrite check_files_cons, (check_file_flag args cfg f h Hu Hf), (IH Hrest).
    simpl. now rewrite orb_assoc.
Qed.

(** [main] over at least one file, when the check of every file returns. *)
Lemma main_checked (args : Args) (f : string) (fs : list string) :
  config_usable (resolved_config rt host (config args)) = true ->
  files_to_check rt host args = inr (f :: fs) ->
  forallb (json_step_returns rt host args (resolved_config rt host (config args)))
    (f :: fs) = true ->
  main rt host args
  = (inr (if existsb (file_flagged rt host args (resolved_config rt host (config args)))
               (f :: fs)
          then 1%Z else 0%Z),
     (preamble rt host args
      ++ trace (discover rt host args)
      ++ trace (check_files rt host args (resolved_config rt host (config args))
                  (f :: fs) false)
      ++ [Print (verdict (existsb (file_flagged rt host args
                                     (resolved_config rt host (config args)))
                            (f :: fs)))])%list).
Proof.
  intros Hu Hf Hj. rewrite (main_found args _ Hf) by discriminate.
  rewrite conclude_loop.
  set (cfg := resolved_config rt host (config args)) in *.
  pose proof (check_files_flag args cfg (f :: fs) Hu Hj false) as Hl.
  rewrite orb_false_l in Hl. rewrite Hl. reflexivity.
Qed.

(** [main] returns when the check of every file does. *)
Lemma main_returns (args : Args) (files : list string) (f : string) :
  files_to_check rt host args = inr files ->
  In f files ->
  config_usable (resolved_config rt host (config args)) = true ->
  forallb (json_step_returns rt host args (resolved_config rt host (config args)))
    files = true ->
  exists code, result (main rt host args) = inr code.
Proof.
  intros Hf Hin Hu Hj. destruct files as [|g files]; [destruct Hin|].
  rewrite (main_checked args g files Hu Hf Hj). cbn [result fst]. eauto.
Qed.

(** C1. When the yamllint output of one of the checked files holds the word
    "error" in any letter-casing, the check of that file sets the error flag
    whatever it was, and the run ends with exit code 1: [main] returns 1
    whenever it returns (as it does when the configuration lets both
    commands be built and, in JSON mode, [json.loads] decodes or rejects
    every actionlint text), the exit code is 1 in every case, and so is the
    exit status of the program. Nothing is assumed of what actionlint
    prints, so this holds when it prints nothing for every file. *)
Theorem yamllint_error_word_fails (args : Args) (files : list string)
  (f out : string) :
  files_to_check rt host args = inr files ->
  In f files ->
  result (lint_yaml rt host f (resolved_config rt host (config args))
            (verbose args || debug args)) = inr out ->
  PyStr.mentions "error" out ->
  (forall h, judge_yamllint out h = true)
  /\ ((exists code, result (main rt host args) = inr code) ->
      result (main rt host args) = inr 1%Z)
  /\ (config_usable (resolved_config rt host (config args)) = true ->
      forallb (json_step_returns rt host args
                 (resolved_config rt host (config args))) files = true ->
      result (main rt host args) = inr 1%Z)
  /\ exit_code (main rt host args) = 1%Z
  /\ exit_status (script rt host args) = 1%Z.
Proof.
  intros Hf Hin Hy Hm.
  assert (Hj : forall h, judge_yamllint out h = true)
    by (intro h; now apply judge_yamllint_mentions).
  destruct (main_flagged args files f out Hf Hin Hy Hj) as [Hmain Hcode].
  repeat split; auto using script_exit_one.
  intros Hu Hs. apply Hmain. apply (main_returns args files f Hf Hin Hu Hs).
Qed.

(** C8. The error flag is monotone over the loop: started with the flag
    set, the loop over any list of files never returns it cleared; and once
    the files checked so far have set it, the run over any continuation of
    the list ends with exit code 1 ([main] returns 1 whenever it returns,
    as it does when the configuration lets both commands be built and, in
    JSON mode, [json.loads] decodes or rejects every actionlint text; the
    exit code and the exit status of the program are 1 in every case). *)
Theorem error_flag_monotone (args : Args) (pre post : list string) :
  files_to_check rt host args = inr (pre ++ post)%list ->
  result (check_files rt host args (resolved_config rt host (config args))
            pre false) = inr true ->
  (forall files r,
     result (check_files rt host args (resolved_config rt host (config args))
               files true) = inr r -> r = true)
  /\ (forall r,
        result (check_files rt host args (resolved_config rt host (config args))
                  (pre ++ post) false) = inr r -> r = true)
  /\ ((exists code, result (main rt host args) = inr code) ->
      result (main rt host args) = inr 1%Z)
  /\ (config_usable (resolved_config rt host (config args)) = true ->
      forallb (json_step_returns rt host args
                 (resolved_config rt host (config args))) (pre ++ post) = true ->
      result (main rt host args) = inr 1%Z)
  /\ exit_code (main rt host args) = 1%Z
  /\ exit_status (script rt host args) = 1%Z.
Proof.
  intros Hf Hpre.
  set (cfg := resolved_config rt host (config args)) in *.
  assert (Hkeep : forall files r,
             result (check_files rt host args cfg files true) = inr r -> r = true)
    by (intros files r; apply check_files_keeps).
  assert (Hall : forall r,
             result (check_files rt host args cfg (pre ++ post) false) = inr r ->
             r = true).
  { intro r. rewrite check_files_app, Hpre. apply Hkeep. }
  destruct pre as [|g pre]; [discriminate Hpre|].
  destruct (main_after_loop args g (pre ++ post) Hf Hall) as [Hmain Hcode].
  repeat split; auto using script_exit_one.
  intros Hu Hs. apply Hmain.
  apply (main_returns args _ g Hf (or_introl eq_refl) Hu Hs).
Qed.

(** C9. When the [try] body of [run_command] raises an exception other than
    the one for a nonzero exit code, as it does when [subprocess.run] itself
    fails, [run_command] returns "Error: " followed by the message of the
    exception. That text sets the yamllint flag whatever the flag was; when
    it is the yamllint step of one of the checked files that fails so, the
    run ends with exit code 1 ([main] returns 1 whenever it returns; the
    exit code and the exit status of the program are 1 in every case). *)
Theorem launch_failure_sets_flag :
  (forall cmd v msg,
     subprocess_run host cmd = Failed msg ->
     (v = true -> exists shown, str_join " " cmd = inr shown) ->
     result (run_command_try host cmd v) = inl (Exception msg))
  /\ (forall cmd v msg,
        result (run_command_try host cmd v) = inl (Exception msg) ->
        result (run_command rt host cmd v) = inr ("Error: " ++ msg))
  /\ (forall msg h, judge_yamllint ("Error: " ++ msg) h = true)
  /\ (forall args files f cmd msg,
        files_to_check rt host args = inr files ->
        In f files ->
        yamllint_cmd rt f (resolved_config rt host (config args)) = inr cmd ->
        result (run_command_try host cmd (verbose args || debug args))
          = inl (Exception msg) ->
        ((exists code, result (main rt host args) = inr code) ->
         result (main rt host args) = inr 1%Z)
        /\ (config_usable (resolved_config rt host (config args)) = true ->
            forallb (json_step_returns rt host args
                       (resolved_config rt host (config args))) files = true ->
            result (main rt host args) = inr 1%Z)
        /\ exit_code (main rt host args) = 1%Z
        /\ exit_status (script rt host args) = 1%Z).
Proof.
  split; [|split; [|split]].
  - intros cmd v msg Hrun Hjoin.
    unfold run_command_try, subprocess_run_checked. rewrite Hrun.
    destruct v; [destruct (Hjoin eq_refl) as [shown ->]|]; reflexivity.
  - intros cmd v msg H. apply (run_command_failed cmd v msg H).
  - apply judge_yamllint_error_prefix.
  - intros args files f cmd msg Hf Hin Hcmd Hfail.
    assert (Hy : result (lint_yaml rt host f (resolved_config rt host (config args))
                           (verbose args || debug args)) = inr ("Error: " ++ msg)).
    { rewrite lint_yaml_result, Hcmd. now apply run_command_failed. }
    destruct (main_flagged args files f _ Hf Hin Hy
                (judge_yamllint_error_prefix msg)) as [Hmain Hcode].
    repeat split; auto using script_exit_one.
    intros Hu Hs. apply Hmain. apply (main_returns args files f Hf Hin Hu Hs).
Qed.


(** C10. In JSON mode an actionlint output that parses to the empty object,
    [null], [0], [false] or the empty string leaves the flag as it was: no
    error is recorded, the value is printed re-serialised, and the raw text
    is not empty, the empty text being no JSON document. *)
Theorem json_falsy_is_success (out : string) (v : pyval) (h : bool) :
  json_standard rt ->
  json_loads rt out = JsonValue v ->
  In v [VDict []; VNone; VInt 0; VBool false; VStr ""] ->
  out <> ""
  /\ truthy v = false
  /\ judge_actionlint rt true out h = (inr h, [Print (json_dumps rt v)]).
Proof.
  intros [_ Hno] Hv Hin. split.
  - intros ->. congruence.
  - assert (Hf : truthy v = false)
      by (simpl in Hin; decompose [or] Hin; subst; try reflexivity; contradiction).
    split; [exact Hf|]. unfold judge_actionlint. now rewrite Hv, Hf.
Qed.

(** C3. When a configuration path is given and opening or parsing the
    document raises, [load_config] returns the built-in defaults exactly,
    after printing the warning with the message of the exception and the
    line announcing the defaults; it returns and raises nothing. *)
Theorem unparsable_config_falls_back (p msg : string) :
  PyStr.nonempty p = true ->
  safe_load_file host p = inl msg ->
  load_config rt host (Some p)
  = (inr DEFAULT_CONFIG,
     [Print ("⚠️ Error loading config file: " ++ msg);
      Print "Using default configuration."]).
Proof.
  intros Hp Hload.
  apply (load_config_fallback p (Exception msg) Hp).
  unfold load_attempt. now rewrite Hload.
Qed.

(** What [load_config] resolves a parsed document to. *)
Lemma resolved_config_parsed (p : string) (v : pyval) :
  PyStr.nonempty p = true ->
  safe_load_file host p = inr v ->
  resolved_config rt host (Some p)
  = match v with
    | VDict d => dict_merge DEFAULT_CONFIG d
    | _ => DEFAULT_CONFIG
    end.
Proof.
  intros Hp Hload. unfold resolved_config.
  destruct (load_attempt host p) as [e|merged] eqn:E.
  - rewrite (load_config_fallback _ _ Hp E). unfold load_attempt in E.
    rewrite Hload in E. destruct v; simpl in E; try reflexivity. discriminate.
  - rewrite (load_config_merged _ _ Hp E). unfold load_attempt in E.
    rewrite Hload in E. destruct v; simpl in E; try discriminate.
    now injection E as <-.
Qed.

(** C4. For a configuration document that parses: a top-level key the
    document lacks keeps the value of the defaults in the resolved
    configuration, in particular 'yamllint' and 'actionlint'; a top-level
    key the document has takes the value of the document, whole. *)
Theorem shallow_merge_keeps_defaults (p : string) (v : pyval) (k : string) :
  PyStr.nonempty p = true ->
  safe_load_file host p = inr v ->
  (forall d, v = VDict d -> dict_wf d) ->
  ((forall d, v = VDict d -> dict_get k d = None) ->
   dict_get k (resolved_config rt host (Some p)) = dict_get k DEFAULT_CONFIG)
  /\ (forall d x,
        v = VDict d -> dict_get k d = Some x ->
        dict_get k (resolved_config rt host (Some p)) = Some x).
Proof.
  intros Hp Hload Hwf. rewrite (resolved_config_parsed p v Hp Hload). split.
  - intro Hk. destruct v; try reflexivity.
    apply dict_get_merge_absent. now apply Hk.
  - intros d x -> Hk. apply dict_get_merge_present; auto.
Qed.

(** What the program does with what [main] did. *)
Lemma script_of_main (args : Args) :
  exit_code (main rt host args) = 1%Z ->
  no_subprocess (trace (main rt host args)) ->
  exit_status (script rt host args) = 1%Z
  /\ no_subprocess (trace (script rt host args)).
Proof.
  intros Hc Hq. destruct (tools_present host) eqn:T.
  - destruct (script_tools_present args T) as [-> ->]. auto.
  - apply (script_tools_missing args T).
Qed.

(** The discovery for a file argument the check of line 134 turns down. *)
Lemma discover_turned_down (args : Args) (f : string) :
  file args = Some f ->
  f <> "" ->
  ~ (path_exists host (Path rt f) = inr true
     /\ path_is_file host (Path rt f) = inr true) ->
  discover rt host args
  = (inr (inl 1%Z), [Print ("❌ Specified file does not exist: " ++ Path rt f)])
  \/ exists msg, discover rt host args = (inl (Exception msg), []).
Proof.
  intros Hfile Hf Hno. unfold discover, query, lift. rewrite Hfile.
  destruct f as [|c f]; [now elim Hf|]. cbn [truthy_opt PyStr.nonempty].
  destruct (path_exists host _) as [m|[]]; cbn.
  - right. eauto.
  - destruct (path_is_file host _) as [m|[]]; cbn.
    + right. eauto.
    + elim Hno. auto.
    + now left.
  - now left.
Qed.




End ScriptFacts.
(* ------------------------------------------------------------------ *)
(** ** The statements at concrete runs *)

(** C1 at a run over one workflow file for which yamllint exits with 1 and
    reports "[Error]", actionlint printing nothing: [main] returns 1. *)
Lemma yamllint_error_word_fails_witness :
  result (main Sample.runtime
            (Sample.machine [] ["ci.yml"] true (inl "none")
               (Sample.by_tool (Completed 1 "ci.yml:3:1 [Error] syntax" "")
                  Sample.clean))
            Sample.plain) = inr 1%Z
  /\ exit_status (script Sample.runtime
                    (Sample.machine [] ["ci.yml"] true (inl "none")
                       (Sample.by_tool (Completed 1 "ci.yml:3:1 [Error] syntax" "")
                          Sample.clean))
                    Sample.plain) = 1%Z.
Proof.
  assert (Hm : PyStr.mentions "error" "ci.yml:3:1 [Error] syntax").
  { exists "ci.yml:3:1 [", "Error", "] syntax". split; [reflexivity|].
    apply PyStr.casing_cons; [right; reflexivity|].
    repeat (apply PyStr.casing_cons; [left; reflexivity|]).
    apply PyStr.casing_nil. }
  destruct (yamllint_error_word_fails Sample.runtime
              (Sample.machine [] ["ci.yml"] true (inl "none")
                 (Sample.by_tool (Completed 1 "ci.yml:3:1 [Error] syntax" "")
                    Sample.clean))
              Sample.plain ["ci.yml"] "ci.yml" "ci.yml:3:1 [Error] syntax"
              eq_refl (or_introl eq_refl) eq_refl Hm)
    as (_ & _ & Hmain & _ & Hstatus).
  split; [apply Hmain; reflexivity | exact Hstatus].
Defined.

(** C8 at a run over three files where yamllint reports an error on the
    first one only: [main] returns 1. *)
Lemma error_flag_monotone_witness :
  result (main Sample.runtime
            (Sample.machine [] ["a.yml"; "b.yml"; "c.yml"] true (inl "none")
               (Sample.bad_yaml_on "a.yml" (Completed 1 "1:1 error bad" "")))
            Sample.plain) = inr 1%Z.
Proof.
  destruct (error_flag_monotone Sample.runtime
              (Sample.machine [] ["a.yml"; "b.yml"; "c.yml"] true (inl "none")
                 (Sample.bad_yaml_on "a.yml" (Completed 1 "1:1 error bad" "")))
              Sample.plain ["a.yml"] ["b.yml"; "c.yml"] eq_refl eq_refl)
    as (_ & _ & _ & Hmain & _).
  apply Hmain; reflexivity.
Defined.

(** C9 at a host where yamllint cannot be started. *)
Lemma launch_failure_sets_flag_witness :
  result (run_command Sample.runtime
            (Sample.machine [] ["ci.yml"] true (inl "none")
               (Sample.by_tool (Failed "[Errno 8] Exec format error: 'yamllint'")
                  Sample.clean))
            [VStr "yamllint"; VStr "ci.yml"] false)
  = inr "Error: [Errno 8] Exec format error: 'yamllint'"
  /\ judge_yamllint "Error: [Errno 13] Permission denied: 'yamllint'" false = true
  /\ result (main Sample.runtime
               (Sample.machine [] ["ci.yml"] true (inl "none")
                  (Sample.by_tool (Failed "[Errno 13] Permission denied: 'yamllint'")
                     Sample.clean))
               Sample.plain) = inr 1%Z.
Proof.
  split; [|split].
  - destruct (launch_failure_sets_flag Sample.runtime
                (Sample.machine [] ["ci.yml"] true (inl "none")
                   (Sample.by_tool (Failed "[Errno 8] Exec format error: 'yamllint'")
                      Sample.clean)))
      as (Htry & Hrun & _ & _).
    apply Hrun. apply Htry; [reflexivity | discriminate].
  - apply (launch_failure_sets_flag Sample.runtime
             (Sample.machine [] [] false (inl "none")
                (Sample.by_tool Sample.clean Sample.clean))).
  - destruct (launch_failure_sets_flag Sample.runtime
                (Sample.machine [] ["ci.yml"] true (inl "none")
                   (Sample.by_tool (Failed "[Errno 13] Permission denied: 'yamllint'")
                      Sample.clean)))
      as (_ & _ & _ & Hloop).
    destruct (Hloop Sample.plain ["ci.yml"] "ci.yml" _
                "[Errno 13] Permission denied: 'yamllint'"
                eq_refl (or_introl eq_refl) eq_refl eq_refl)
      as (_ & Hmain & _).
    apply Hmain; reflexivity.
Defined.

Lemma json_standard_sample : json_standard Sample.runtime.
Proof. split; reflexivity. Defined.



(** C10 at the text of the empty object. *)
Lemma json_falsy_is_success_witness :
  "{}" <> "" /\ truthy (VDict []) = false
  /\ judge_actionlint Sample.runtime true "{}" false = (inr false, [Print "{}"]).
Proof.
  exact (json_falsy_is_success Sample.runtime "{}" (VDict []) false
           json_standard_sample eq_refl (or_introl eq_refl)).
Defined.

(** C3 at a document the YAML parser rejects. *)
Lemma unparsable_config_falls_back_witness :
  load_config Sample.runtime
    (Sample.machine [] [] false (inl "mapping values are not allowed here")
       (Sample.by_tool Sample.clean Sample.clean))
    (Some "pyalint.yml")
  = (inr DEFAULT_CONFIG,
     [Print "⚠️ Error loading config file: mapping values are not allowed here";
      Print "Using default configuration."]).
Proof.
  exact (unparsable_config_falls_back Sample.runtime
           (Sample.machine [] [] false (inl "mapping values are not allowed here")
              (Sample.by_tool Sample.clean Sample.clean))
           "pyalint.yml" "mapping values are not allowed here" eq_refl eq_refl).
Defined.

(** C4 at a document that has the 'actionlint' section only. *)
Lemma shallow_merge_keeps_defaults_witness :
  dict_get "yamllint"
    (resolved_config Sample.runtime
       (Sample.machine [] [] false
          (inr (VDict [("actionlint", VDict [("verbose", VBool true)])]))
          (Sample.by_tool Sample.clean Sample.clean))
       (Some "pyalint.yml"))
  = Some (VDict [("rules", VDict [("line-length", VStr "disable")])])
  /\ dict_get "actionlint"
       (resolved_config Sample.runtime
          (Sample.machine [] [] false
             (inr (VDict [("actionlint", VDict [("verbose", VBool true)])]))
             (Sample.by_tool Sample.clean Sample.clean))
          (Some "pyalint.yml"))
     = Some (VDict [("verbose", VBool true)]).
Proof.
  assert (Hwf : forall d,
             VDict [("actionlint", VDict [("verbose", VBool true)])] = VDict d ->
             dict_wf d).
  { intros d H. injection H as <-. unfold dict_wf. simpl.
    constructor; [intros [] | constructor]. }
  split.
  - apply (proj1 (shallow_merge_keeps_defaults Sample.runtime
             (Sample.machine [] [] false
                (inr (VDict [("actionlint", VDict [("verbose", VBool true)])]))
                (Sample.by_tool Sample.clean Sample.clean))
             "pyalint.yml" _ "yamllint" eq_refl eq_refl Hwf)).
    intros d H. injection H as <-. reflexivity.
  - apply (proj2 (shallow_merge_keeps_defaults Sample.runtime
             (Sample.machine [] [] false
                (inr (VDict [("actionlint", VDict [("verbose", VBool true)])]))
                (Sample.by_tool Sample.clean Sample.clean))
             "pyalint.yml" _ "actionlint" eq_refl eq_refl Hwf)
             [("actionlint", VDict [("verbose", VBool true)])]);
      reflexivity.
Defined.







(* ------------------------------------------------------------------ *)
(** ** Further facts about the text operations *)

Module PyStrMore.
Import PyStr.

Lemma lower_ascii_cases (c : ascii) :
  c = lower_ascii c \/ c = upper_ascii (lower_ascii c).
Proof.
  destruct c as [[] [] [] [] [] [] [] []]; vm_compute;
    solve [left; reflexivity | right; reflexivity].
Qed.

(** Every text is a casing of its lower-case form. *)
Lemma casing_of_lower_self (w : string) : casing_of w (lower w).
Proof.
  induction w as [|c w IH]; simpl; constructor; auto using lower_ascii_cases.
Qed.

Lemma lower_app_inv (a b : string) : forall s,
  lower s = a ++ b ->
  exists s1 s2, s = s1 ++ s2 /\ lower s1 = a /\ lower s2 = b.
Proof.
  induction a as [|c a IH]; intros s H.
  - exists "", s. auto.
  - destruct s as [|d s]; simpl in H; [discriminate|].
    injection H as Hc Hs. destruct (IH s Hs) as (s1 & s2 & -> & H1 & H2).
    exists (String d s1), s2. simpl. rewrite Hc, H1. auto.
Qed.

(** The lower-cased text holds the word only if the text holds it in some
    casing. *)
Lemma contains_lower_mentions (p s : string) :
  contains p (lower s) = true -> mentions p s.
Proof.
  intro H. apply PyStrFacts.contains_split in H as (a & b & H).
  apply lower_app_inv in H as (pre & rest & -> & _ & H).
  apply lower_app_inv in H as (w & post & -> & Hw & _).
  exists pre, w, post. split; [reflexivity|]. rewrite <- Hw.
  apply casing_of_lower_self.
Qed.

Lemma concat_cons (x : string) (xs : list string) :
  String.concat "" (x :: xs) = x ++ String.concat "" xs.
Proof.
  destruct xs as [|y ys]; simpl; [|reflexivity].
  induction x as [|c x IH]; simpl; [reflexivity | now rewrite <- IH].
Qed.

Lemma chars_nil (s : string) : chars s = [] -> s = "".
Proof.
  destruct s as [|c r]; [reflexivity|]. simpl.
  destruct (chars r) as [|g gs]; [discriminate|].
  destruct r as [|d r']; [discriminate|]. now destruct (is_cont d).
Qed.

(** Joining the characters of a text gives the text back. *)
Lemma chars_concat (s : string) : String.concat "" (chars s) = s.
Proof.
  induction s as [|c r IH]; [reflexivity|].
  change (chars (String c r))
    with (match chars r, r with
          | g :: gs, String d _ =>
              if is_cont d then String c g :: gs
              else String c EmptyString :: g :: gs
          | _, _ => [String c EmptyString]
          end).
  destruct (chars r) as [|g gs] eqn:E.
  - now rewrite (chars_nil r E).
  - destruct r as [|d r']; [discriminate E|].
    destruct (is_cont d).
    + rewrite concat_cons in IH. rewrite concat_cons.
      change (String c g ++ String.concat "" gs)
        with (String c (g ++ String.concat "" gs)).
      now rewrite IH.
    + rewrite concat_cons.
      change (String c "" ++ String.concat "" (g :: gs))
        with (String c (String.concat "" (g :: gs))).
      now rewrite IH.
Qed.

(** No character of a text is the empty string. *)
Lemma chars_nonempty (s : string) : Forall (fun ch => nonempty ch = true) (chars s).
Proof.
  induction s as [|c r IH]; [constructor|].
  change (chars (String c r))
    with (match chars r, r with
          | g :: gs, String d _ =>
              if is_cont d then String c g :: gs
              else String c EmptyString :: g :: gs
          | _, _ => [String c EmptyString]
          end).
  destruct (chars r) as [|g gs]; [repeat constructor|].
  destruct r as [|d r']; [repeat constructor|].
  inversion IH; subst. destruct (is_cont d); repeat constructor; assumption.
Qed.

Lemma drop_spaces_incl (l : list string) (x : string) :
  In x (drop_spaces l) -> In x l.
Proof.
  induction l as [|ch l IH]; simpl; [tauto|].
  destruct (is_space ch); simpl; tauto.
Qed.

Lemma drop_spaces_nil (l : list string) :
  drop_spaces l = [] <-> forallb is_space l = true.
Proof.
  induction l as [|ch l IH]; simpl; [tauto|].
  destruct (is_space ch); simpl; [exact IH|]. split; discriminate.
Qed.

Lemma drop_spaces_head (l : list string) (x : string) (r : list string) :
  drop_spaces l = x :: r -> is_space x = false.
Proof.
  induction l as [|ch l IH]; simpl; [discriminate|].
  destruct (is_space ch) eqn:E; [exact IH|]. intro H. now injection H as <- _.
Qed.

Lemma concat_nonempty (l : list string) :
  Forall (fun ch => nonempty ch = true) l ->
  nonempty (String.concat "" l) = match l with [] => false | _ :: _ => true end.
Proof.
  destruct l as [|x xs]; [reflexivity|]. intro H. inversion H; subst.
  rewrite concat_cons. now destruct x.
Qed.

(** [strip] leaves something exactly when the text is not blank. *)
Lemma strip_nonempty (s : string) : nonempty (strip s) = negb (blank s).
Proof.
  unfold strip, blank. set (l := chars s).
  assert (Hl : Forall (fun ch => nonempty ch = true) l) by apply chars_nonempty.
  rewrite concat_nonempty.
  - destruct (forallb is_space l) eqn:E.
    + apply drop_spaces_nil in E. now rewrite E.
    + destruct (drop_spaces l) as [|x r] eqn:D.
      * apply drop_spaces_nil in D. congruence.
      * assert (Hx : is_space x = false) by (eapply drop_spaces_head; eauto).
        destruct (drop_spaces (rev (x :: r))) as [|y r'] eqn:D'.
        -- apply drop_spaces_nil in D'.
           rewrite forallb_forall in D'.
           specialize (D' x (proj1 (in_rev (x :: r) x) (or_introl eq_refl))).
           congruence.
        -- simpl. now destruct (rev r' ++ [y])%list eqn:R;
             [apply app_eq_nil in R as [_ R]; discriminate|].
  - apply Forall_forall. intros x Hx. rewrite Forall_forall in Hl. apply Hl.
    apply in_rev in Hx. apply drop_spaces_incl in Hx. apply in_rev in Hx.
    now apply drop_spaces_incl in Hx.
Qed.

End PyStrMore.

(* ------------------------------------------------------------------ *)
(** ** Further properties of the script *)

Section ScriptMore.

Context (rt : Runtime) (host : Host).

Lemma subprocess_calls_app (t u : list event) :
  subprocess_calls (t ++ u) = (subprocess_calls t ++ subprocess_calls u)%list.
Proof. apply flat_map_app. Qed.

Lemma no_subprocess_calls (t : list event) :
  subprocess_calls t = [] -> no_subprocess t.
Proof.
  induction t as [|e t IH]; intros H cmd Hin; [destruct Hin|].
  destruct e as [line|c]; simpl in H; [|discriminate].
  destruct Hin as [E|Hin]; [discriminate | exact (IH H cmd Hin)].
Qed.

(** The codes of the early returns of the discovery. *)
Lemma discover_code (args : Args) (code : Z) :
  result (discover rt host args) = inr (inl code) -> code = 0%Z \/ code = 1%Z.
Proof.
  unfold discover, find_workflow_files, query, lift.
  destruct (truthy_opt (file args)).
  - destruct (path_exists host _) as [m|[]]; simpl; try discriminate.
    + destruct (path_is_file host _) as [m|[]]; simpl; try discriminate.
      intro H. injection H as <-. now right.
    + intro H. injection H as <-. now right.
  - destruct (path_exists host _) as [m|[]]; simpl; try discriminate.
    + destruct (rglob host _ "*.yml") as [m|ymls]; simpl; try discriminate.
      destruct (rglob host _ "*.yaml") as [m|yamls]; simpl; discriminate.
    + intro H. injection H as <-. now left.
Qed.

(** What [main] ends with: 0, 1 or an exception. *)
Lemma main_outcomes (args : Args) :
  result (main rt host args) = inr 0%Z
  \/ result (main rt host args) = inr 1%Z
  \/ exists msg, result (main rt host args) = inl (Exception msg).
Proof.
  rewrite main_unfold. destruct (dump_passes rt host args); [|simpl; eauto].
  cbn [result fst]. rewrite result_bind.
  destruct (result (discover rt host args)) as [e|[code|[|f fs]]] eqn:E.
  - destruct (proj2 (discover_quiet rt host args) e E) as [msg ->]. eauto.
  - apply discover_code in E as [-> | ->]; auto.
  - now left.
  - rewrite conclude_loop. cbn [result fst].
    destruct (result (check_files rt host args _ (f :: fs) false)) as [e|[]] eqn:C.
    + apply check_files_exn in C as [msg ->]. eauto.
    + right. now left.
    + now left.
Qed.

(** X1. When a linter is missing from the search path the program prints
    one line naming the missing tools, in the order yamllint, actionlint,
    and exits with status 1: [main] is not run, no configuration is read
    and no subprocess is started. *)
Theorem missing_tool_stops_before_main (args : Args) :
  tools_present host = false ->
  script rt host args
  = (inl (SystemExit 1),
     [Print ("❌ Missing tools: "
               ++ PyStr.join ", "
                    ((if truthy_opt (which host "yamllint") then [] else ["yamllint"])
                     ++ (if truthy_opt (which host "actionlint") then []
                         else ["actionlint"]))%list
               ++ ". Please install them before running the script.")]).
Proof.
  unfold tools_present, script, check_dependencies. simpl.
  destruct (truthy_opt (which host "yamllint"));
    destruct (truthy_opt (which host "actionlint")); simpl;
    try discriminate; reflexivity.
Qed.

(** X2. When both linters are on the search path the dependency check
    prints nothing and the program is [main] followed by [sys.exit]: it
    raises [SystemExit] with the code [main] returns, or lets the exception
    of [main] through, and its events are those of [main]. *)
Theorem program_is_main_then_exit (args : Args) :
  tools_present host = true ->
  script rt host args
  = (match result (main rt host args) with
     | inr code => inl (SystemExit code)
     | inl e => inl e
     end,
     trace (main rt host args)).
Proof.
  unfold tools_present, script, check_dependencies. simpl.
  destruct (truthy_opt (which host "yamllint"));
    destruct (truthy_opt (which host "actionlint")); simpl;
    try discriminate; intros _.
  destruct (main rt host args) as [[e|code] t]; simpl; [reflexivity|].
  now rewrite app_nil_r.
Qed.

(** X3. The exit status of the program, started with any command line on
    any host, is 0, 1 or 2. It is 2 only when both linters are on the
    search path and the command line is rejected by [parse_args]; a request
    for the help ends with 0 when the linters are there. [main], for the
    arguments [parse_args] returns, ends with 0, with 1, or with an
    exception, and then the exit status is 1. *)
Theorem exit_status_at_most_two :
  (exit_status (program rt host) = 0%Z
   \/ exit_status (program rt host) = 1%Z
   \/ exit_status (program rt host) = 2%Z)
  /\ (exit_status (program rt host) = 2%Z ->
      tools_present host = true /\ parse_args rt (argv host) = UsageExit)
  /\ (tools_present host = true ->
      (parse_args rt (argv host) = UsageExit -> exit_status (program rt host) = 2%Z)
      /\ (parse_args rt (argv host) = HelpExit -> exit_status (program rt host) = 0%Z)
      /\ (forall args,
            parse_args rt (argv host) = Namespace args ->
            exit_status (program rt host) = exit_code (main rt host args)))
  /\ (forall args,
        (result (main rt host args) = inr 0%Z
         \/ result (main rt host args) = inr 1%Z
         \/ exists msg, result (main rt host args) = inl (Exception msg))
        /\ (exit_code (main rt host args) = 0%Z
            \/ exit_code (main rt host args) = 1%Z)).
Proof.
  assert (Hcode : forall args,
            exit_code (main rt host args) = 0%Z
            \/ exit_code (main rt host args) = 1%Z).
  { intro args. unfold exit_code.
    destruct (main_outcomes args) as [-> | [-> | [msg ->]]]; auto. }
  assert (Hprog : tools_present host = true ->
            exit_status (program rt host)
            = match parse_args rt (argv host) with
              | Namespace args => exit_code (main rt host args)
              | HelpExit => 0%Z
              | UsageExit => 2%Z
              end).
  { unfold tools_present, program, main_entry, check_dependencies, exit_status,
      exit_code. simpl.
    destruct (truthy_opt (which host "yamllint"));
      destruct (truthy_opt (which host "actionlint")); simpl;
      try discriminate; intros _.
    destruct (parse_args rt (argv host)) as [args| |]; [|reflexivity..].
    destruct (main rt host args) as [[e|code] t]; reflexivity. }
  assert (Hmiss : tools_present host = false -> exit_status (program rt host) = 1%Z).
  { unfold tools_present, program, check_dependencies, exit_status. simpl.
    destruct (truthy_opt (which host "yamllint"));
      destruct (truthy_opt (which host "actionlint")); simpl;
      try discriminate; reflexivity. }
  split; [|split; [|split]].
  - destruct (tools_present host) eqn:T.
    + rewrite (Hprog eq_refl).
      destruct (parse_args rt (argv host)) as [args| |]; auto.
      destruct (Hcode args) as [-> | ->]; auto.
    + rewrite (Hmiss eq_refl). auto.
  - destruct (tools_present host) eqn:T.
    + rewrite (Hprog eq_refl).
      destruct (parse_args rt (argv host)) as [args| |]; try discriminate; auto.
      destruct (Hcode args) as [-> | ->]; discriminate.
    + rewrite (Hmiss eq_refl). discriminate.
  - intro T. rewrite (Hprog T).
    split; [|split].
    + now intros ->.
    + now intros ->.
    + intros args ->. reflexivity.
  - intro args. split; [apply main_outcomes | apply Hcode].
Qed.

(** [run_command] on a subprocess that exits with code 0. *)
Lemma run_command_zero (cmd : list pyval) (v : bool) (out err shown : string) :
  subprocess_run host cmd = Completed 0 out err ->
  (v = true -> str_join " " cmd = inr shown) ->
  run_command rt host cmd v
  = (inr out,
     ((if v then [Print ("🔧 Running: " ++ shown)] else []) ++ [Subprocess cmd])%list).
Proof.
  intros Hrun Hjoin.
  unfold run_command, run_command_try, subprocess_run_checked. rewrite Hrun.
  destruct v; [rewrite (Hjoin eq_refl)|]; reflexivity.
Qed.

(** X4. When the subprocess exits with code 0, [run_command] returns its
    standard output alone: the standard error is dropped and no warning is
    printed. In verbose mode the command line is printed first. *)
Theorem run_command_success_drops_stderr (cmd : list pyval) (v : bool)
  (out err shown : string) :
  subprocess_run host cmd = Completed 0 out err ->
  (v = true -> str_join " " cmd = inr shown) ->
  run_command rt host cmd v
  = (inr out,
     ((if v then [Print ("🔧 Running: " ++ shown)] else []) ++ [Subprocess cmd])%list)
  /\ ~ In (Print ("⚠️ Command failed with exit code " ++ PyStr.of_Z 0))
         (trace (run_command rt host cmd v)).
Proof.
  intros Hrun Hjoin. rewrite (run_command_zero cmd v out err shown Hrun Hjoin).
  split; [reflexivity|]. simpl.
  destruct v; simpl; intuition discriminate.
Qed.

(** X5. [run_command] never raises, whatever the subprocess does, and calls
    [subprocess.run] at most once, with the command it was given. *)
Theorem run_command_total_one_call (cmd : list pyval) (v : bool) :
  exists text,
    result (run_command rt host cmd v) = inr text
    /\ (subprocess_calls (trace (run_command rt host cmd v)) = [cmd]
        \/ subprocess_calls (trace (run_command rt host cmd v)) = []).
Proof.
  unfold run_command, run_command_try, subprocess_run_checked.
  destruct v.
  - destruct (str_join " " cmd) as [e|shown] eqn:J.
    + destruct (str_join_exn _ _ _ J) as [msg ->]. simpl. eauto.
    + destruct (subprocess_run host cmd) as [rc out err|msg];
        [destruct (Z.eqb rc 0)|]; simpl; eauto.
  - destruct (subprocess_run host cmd) as [rc out err|msg];
      [destruct (Z.eqb rc 0)|]; simpl; eauto.
Qed.

(** X6. In verbose mode a command that holds a value that is no string is
    never started: joining it for the "Running" line raises, and
    [run_command] returns "Error: " and the message after printing it.
    Without the verbose flag the same command is handed to
    [subprocess.run]. *)
Theorem verbose_join_failure_skips_subprocess (cmd : list pyval) (msg : string) :
  str_join " " cmd = inl (Exception msg) ->
  run_command rt host cmd true
  = (inr ("Error: " ++ msg),
     [Print ("❌ Unexpected error running command: " ++ msg)])
  /\ subprocess_calls (trace (run_command rt host cmd false)) = [cmd].
Proof.
  intro J. split.
  - unfold run_command, run_command_try. rewrite J. reflexivity.
  - unfold run_command, run_command_try, subprocess_run_checked.
    destruct (subprocess_run host cmd) as [rc out err|m];
      [destruct (Z.eqb rc 0)|]; reflexivity.
Qed.

(** X7. The yamllint step sets the flag exactly when the text holds the
    word "error" in some letter-casing, anywhere in it (inside a longer word
    or a file name too); otherwise the flag stays as it was. *)
Theorem yamllint_flag_iff_mentions (out : string) (h : bool) :
  judge_yamllint out h = true <-> h = true \/ PyStr.mentions "error" out.
Proof.
  unfold judge_yamllint.
  destruct (PyStr.contains "error" (PyStr.lower out)) eqn:E.
  - split; [intros _; right; now apply PyStrMore.contains_lower_mentions | reflexivity].
  - split; [now left|]. intros [H|H]; [exact H|].
    apply (PyStrFacts.mentions_contains_lower "error" out eq_refl) in H. congruence.
Qed.

Lemma lint_yaml_completed (args : Args) (cfg : dict) (f : string)
  (cmd : list pyval) (rc : Z) (out err : string) :
  yamllint_cmd rt f cfg = inr cmd ->
  subprocess_run host cmd = Completed rc out err ->
  result (lint_yaml rt host f cfg (verbose args || debug args))
  = inr (if Z.eqb rc 0 then out else out ++ err).
Proof.
  intros Hcmd Hrun. rewrite lint_yaml_result, Hcmd.
  destruct (yamllint_cmd_joins rt f cfg cmd Hcmd) as [shown Hj].
  destruct (Z.eqb rc 0) eqn:Z0.
  - apply Z.eqb_eq in Z0. subst rc.
    now rewrite (run_command_zero cmd _ out err shown Hrun (fun _ => Hj)).
  - apply Z.eqb_neq in Z0.
    apply (run_command_nonzero rt host cmd _ rc out err Hrun Z0). eauto.
Qed.

(** X8. The exit code of yamllint does not enter into the classification:
    the step looks at the standard output when the code is 0, at the
    standard output followed by the standard error otherwise, and sets the
    flag exactly when that text holds the word "error". A failing exit with
    a text without the word is not recorded; a message on the standard
    error of a run that exits with 0 is not seen. *)
Theorem yamllint_exit_code_ignored (args : Args) (cfg : dict) (f : string)
  (cmd : list pyval) (rc : Z) (out err : string) :
  yamllint_cmd rt f cfg = inr cmd ->
  subprocess_run host cmd = Completed rc out err ->
  yamllint_text rt host args cfg f = (if Z.eqb rc 0 then out else out ++ err)
  /\ (judge_yamllint (yamllint_text rt host args cfg f) false = true
      <-> PyStr.mentions "error" (if Z.eqb rc 0 then out else out ++ err)).
Proof.
  intros Hcmd Hrun.
  assert (Ht : yamllint_text rt host args cfg f
               = (if Z.eqb rc 0 then out else out ++ err)).
  { unfold yamllint_text.
    now rewrite (lint_yaml_completed args cfg f cmd rc out err Hcmd Hrun). }
  split; [exact Ht|]. rewrite Ht.
  unfold judge_yamllint.
  destruct (PyStr.contains "error" (PyStr.lower _)) eqn:E.
  - split; [intros _; now apply PyStrMore.contains_lower_mentions | reflexivity].
  - split; [discriminate|]. intro H.
    apply (PyStrFacts.mentions_contains_lower "error" _ eq_refl) in H. congruence.
Qed.

(** X9. In text mode the actionlint step prints the text as it is and sets
    the flag exactly when the text is not blank: a text of white space only
    (or no text) leaves the flag as it was. *)
Theorem text_mode_flags_nonblank (out : string) (h : bool) :
  judge_actionlint rt false out h
  = (inr (if PyStr.blank out then h else true), [Print out]).
Proof.
  unfold judge_actionlint. simpl. rewrite PyStrMore.strip_nonempty.
  now destruct (PyStr.blank out).
Qed.







(** X16. A configuration document that parses to something that is no
    mapping (an empty document gives [None], a sequence gives a list) is
    handled like one that does not parse: the merge raises inside the
    [try], the warning names the type, and the defaults are returned. *)
Theorem non_mapping_document_falls_back (p : string) (v : pyval) :
  PyStr.nonempty p = true ->
  safe_load_file host p = inr v ->
  (forall d, v <> VDict d) ->
  load_config rt host (Some p)
  = (inr DEFAULT_CONFIG,
     [Print ("⚠️ Error loading config file: '" ++ type_name v
               ++ "' object is not a mapping");
      Print "Using default configuration."]).
Proof.
  intros Hp Hload Hv.
  rewrite (load_config_fallback rt host p
             (Exception ("'" ++ type_name v ++ "' object is not a mapping")) Hp);
    [reflexivity|].
  unfold load_attempt. rewrite Hload.
  destruct v; try reflexivity. now elim (Hv d).
Qed.

Lemma dict_get_set_keeps (k k' : string) (v : pyval) (d : dict) :
  dict_get k d <> None -> dict_get k (dict_set k' v d) <> None.
Proof.
  intro H. destruct (String.eqb_spec k k') as [->|Hne].
  - rewrite dict_get_set_same. discriminate.
  - now rewrite dict_get_set_other.
Qed.

Lemma dict_get_merge_keeps (k : string) (b : dict) : forall a,
  dict_get k a <> None -> dict_get k (dict_merge a b) <> None.
Proof.
  unfold dict_merge. induction b as [|[k' v'] b IH]; intros a H; [exact H|].
  simpl. apply IH. now apply dict_get_set_keeps.
Qed.

(** X17. Whatever the configuration path and the document behind it, the
    configuration [main] works with has both the 'yamllint' and the
    'actionlint' key: the empty defaults of the two [get] calls at lines 88
    and 107 are never used for the top-level sections. *)
Theorem resolved_config_has_both_sections (o : option string) :
  dict_get "yamllint" (resolved_config rt host o) <> None
  /\ dict_get "actionlint" (resolved_config rt host o) <> None.
Proof.
  assert (H : resolved_config rt host o = DEFAULT_CONFIG
              \/ exists d, resolved_config rt host o = dict_merge DEFAULT_CONFIG d).
  { unfold resolved_config. destruct (truthy_opt o) eqn:Ho.
    - destruct o as [p|]; [|discriminate]. simpl in Ho.
      destruct (load_attempt host p) as [e|merged] eqn:E.
      + rewrite (load_config_fallback rt host _ _ Ho E). now left.
      + rewrite (load_config_merged rt host _ _ Ho E). simpl.
        unfold load_attempt in E. destruct (safe_load_file host p) as [m|v];
          [discriminate|]. destruct v; try discriminate.
        simpl in E. injection E as <-. eauto.
    - rewrite (load_config_default rt host _ Ho). now left. }
  destruct H as [-> | [d ->]].
  - split; discriminate.
  - split; apply dict_get_merge_keeps; discriminate.
Qed.

(** X18. The merge is shallow under the 'yamllint' key too: a document
    whose 'yamllint' section has no 'rules' replaces the whole default
    section, so the default rule that disables line-length is gone from the
    yamllint command, which the defaults alone would carry. *)
Theorem section_without_rules_drops_default_rule (p f : string) (d sec : dict) :
  PyStr.nonempty p = true ->
  safe_load_file host p = inr (VDict d) ->
  dict_wf d ->
  dict_get "yamllint" d = Some (VDict sec) ->
  dict_get "rules" sec = None ->
  yamllint_cmd rt f (resolved_config rt host (Some p))
  = inr [VStr "yamllint"; VStr "-d"; VStr "{extends: default, rules: {}}"; VStr f]
  /\ yamllint_cmd rt f DEFAULT_CONFIG
     = inr [VStr "yamllint"; VStr "-d";
            VStr "{extends: default, rules: {line-length: disable}}"; VStr f].
Proof.
  intros Hp Hload Hwf Hsec Hrules. split; [|reflexivity].
  rewrite (resolved_config_parsed rt host p _ Hp Hload).
  unfold yamllint_cmd, yamllint_rules, method_get.
  rewrite (dict_get_merge_present "yamllint" _ DEFAULT_CONFIG d Hwf Hsec), Hrules.
  reflexivity.
Qed.

(** X19. When 'flags' is a string and not a list, [extend] takes it apart:
    every character becomes an argument of its own, between the flag of the
    script and the file path. Joined again the characters give the string
    back. *)
Theorem string_flags_are_split (cfg sec : dict) (s f : string) (v j : bool) :
  dict_get "actionlint" cfg = Some (VDict sec) ->
  dict_get "flags" sec = Some (VStr s) ->
  actionlint_cmd f cfg v j
  = inr (VStr "actionlint"
           :: mode_flag v j ++ map VStr (PyStr.chars s) ++ [VStr f])%list
  /\ String.concat "" (PyStr.chars s) = s.
Proof.
  intros Hsec Hflags. split; [|apply PyStrMore.chars_concat].
  unfold actionlint_cmd, actionlint_flags, method_get, mode_flag.
  rewrite Hsec, Hflags. simpl.
  destruct j; [|destruct v]; simpl; now rewrite <- ?app_assoc.
Qed.

Lemma str_items_all_strings (l : list pyval) : forall i,
  all_strings l = true -> exists items, str_items i l = inr items.
Proof.
  induction l as [|x l IH]; intros i H; [simpl; eauto|].
  simpl in H. apply andb_true_iff in H as [Hx Hl].
  destruct x; try discriminate. simpl.
  destruct (IH (S i) Hl) as [items ->]. eauto.
Qed.

Lemma str_join_all_strings (sep : string) (l : list pyval) :
  all_strings l = true -> exists shown, str_join sep l = inr shown.
Proof.
  intro H. unfold str_join.
  destruct (str_items_all_strings l 0 H) as [items ->]. eauto.
Qed.

(** The one [subprocess.run] call of [run_command] when the "Running" line
    can be printed. *)
Lemma run_command_calls (cmd : list pyval) (v : bool) :
  v = false \/ all_strings cmd = true ->
  subprocess_calls (trace (run_command rt host cmd v)) = [cmd].
Proof.
  intro H. unfold run_command, run_command_try, subprocess_run_checked.
  destruct v.
  - destruct H as [H|H]; [discriminate|].
    destruct (str_join_all_strings " " cmd H) as [shown ->].
    destruct (subprocess_run host cmd) as [rc out err|m];
      [destruct (Z.eqb rc 0)|]; reflexivity.
  - destruct (subprocess_run host cmd) as [rc out err|m];
      [destruct (Z.eqb rc 0)|]; reflexivity.
Qed.

Lemma subprocess_calls_judge (j : bool) (out : string) (h : bool) :
  subprocess_calls (trace (judge_actionlint rt j out h)) = [].
Proof.
  unfold judge_actionlint. destruct j; [destruct (json_loads rt out)|]; reflexivity.
Qed.

(** The [subprocess.run] calls of the loop. *)
Lemma check_files_calls (args : Args) (cfg : dict)
  (items : list (string * pyval)) (flags : list pyval)
  (files : list string) (h : bool) :
  yamllint_rules cfg = inr items ->
  actionlint_flags cfg = inr flags ->
  (verbose args || debug args)%bool = false \/ all_strings flags = true ->
  forallb (json_step_returns rt host args cfg) files = true ->
  subprocess_calls (trace (check_files rt host args cfg files h))
  = flat_map
      (fun f =>
         [ [VStr "yamllint"; VStr "-d";
            VStr ("{extends: default, rules: {"
                    ++ PyStr.join ","
                         (map (fun kv => fst kv ++ ": " ++ py_str rt (snd kv)) items)
                    ++ "}}");
            VStr f];
           (VStr "actionlint"
              :: mode_flag (verbose args || debug args) (json args)
              ++ flags ++ [VStr f])%list ])
      files.
Proof.
  intros Hy Ha Hs.
  assert (Hu : config_usable cfg = true)
    by (unfold config_usable; now rewrite Hy, Ha).
  revert h. induction files as [|f files IH]; intros h Hall; [reflexivity|].
  cbn [forallb] in Hall. apply andb_true_iff in Hall as [Hjf Hrest].
  destruct (lint_texts rt host args cfg f Hu) as [Hry Hra].
  assert (Hr : result (check_file rt host args cfg f h)
               = inr (h || file_flagged rt host args cfg f)%bool)
    by now apply check_file_flag.
  rewrite (check_files_continues rt host args cfg f files h _ Hr).
  cbn [trace snd]. rewrite subprocess_calls_app, (IH _ Hrest).
  change (flat_map ?g (f :: files)) with (g f ++ flat_map g files)%list.
  f_equal.
  rewrite check_file_trace, Hry, Hra.
  rewrite !subprocess_calls_app, subprocess_calls_judge.
  unfold lint_yaml, lint_action, yamllint_cmd, actionlint_cmd. rewrite Hy, Ha.
  unfold lift. cbn [bind trace snd]. 
  match goal with
  | |- context [run_command rt host ?c ?v] =>
      destruct (run_command rt host c v) as [ry ty] eqn:Ey
  end.
  assert (Hty : subprocess_calls ty
                = [[VStr "yamllint"; VStr "-d";
                    VStr ("{extends: default, rules: {"
                            ++ PyStr.join ","
                                 (map (fun kv => fst kv ++ ": " ++ py_str rt (snd kv))
                                    items)
                            ++ "}}");
                    VStr f]]).
  { change ty with (trace (ry, ty)). rewrite <- Ey.
    apply run_command_calls. now right. }
  match goal with
  | |- context [run_command rt host ?c ?v] =>
      destruct (run_command rt host c v) as [ra ta] eqn:Ea
  end.
  assert (Hta : subprocess_calls ta
                = [(VStr "actionlint"
                      :: mode_flag (verbose args || debug args) (json args)
                      ++ flags ++ [VStr f])%list]).
  { change ta with (trace (ra, ta)). rewrite <- Ea.
    rewrite run_command_calls.
    - unfold mode_flag. destruct (json args); [|destruct (verbose args || debug args)%bool];
        simpl; now rewrite <- ?app_assoc.
    - destruct Hs as [Hv|Hfl]; [now left|right].
      unfold all_strings in *. rewrite !forallb_app, Hfl.
      now destruct (json args); [|destruct (verbose args || debug args)%bool]. }
  cbn [trace snd app]. rewrite Hty, Hta. reflexivity.
Qed.


Lemma subprocess_calls_quiet (t : list event) :
  no_subprocess t -> subprocess_calls t = [].
Proof.
  induction t as [|e t IH]; intro H; [reflexivity|].
  destruct e as [line|cmd]; simpl.
  - apply IH. intros c Hin. apply (H c). now right.
  - elim (H cmd). now left.
Qed.


End ScriptMore.
(* ------------------------------------------------------------------ *)
(** ** The further properties at concrete runs *)

(** X1 at a host without actionlint. *)
Lemma missing_tool_stops_before_main_witness :
  script Sample.runtime
    (Sample.without_tools ["actionlint"]
       (Sample.machine [] ["ci.yml"] true (inl "none")
          (Sample.by_tool Sample.clean Sample.clean)))
    Sample.plain
  = (inl (SystemExit 1),
     [Print "❌ Missing tools: actionlint. Please install them before running the script."]).
Proof.
  exact (missing_tool_stops_before_main Sample.runtime
           (Sample.without_tools ["actionlint"]
              (Sample.machine [] ["ci.yml"] true (inl "none")
                 (Sample.by_tool Sample.clean Sample.clean)))
           Sample.plain eq_refl).
Defined.

(** X2 at a host with both linters and no workflow directory. *)
Lemma program_is_main_then_exit_witness :
  script Sample.runtime
    (Sample.machine [] [] false (inl "none")
       (Sample.by_tool Sample.clean Sample.clean))
    Sample.plain
  = (inl (SystemExit 0), [Print "⚠️ .github/workflows directory not found."]).
Proof.
  exact (program_is_main_then_exit Sample.runtime
           (Sample.machine [] [] false (inl "none")
              (Sample.by_tool Sample.clean Sample.clean))
           Sample.plain eq_refl).
Defined.

(** X3 at a command line with an option the script does not have, and at
    a request for the help. *)
Lemma exit_status_at_most_two_witness :
  exit_status
    (program Sample.runtime
       (Sample.started_with ["--fix"]
          (Sample.machine [] ["ci.yml"] true (inl "none")
             (Sample.by_tool Sample.clean Sample.clean)))) = 2%Z
  /\ exit_status
       (program Sample.runtime
          (Sample.started_with ["-h"]
             (Sample.machine [] ["ci.yml"] true (inl "none")
                (Sample.by_tool Sample.clean Sample.clean)))) = 0%Z.
Proof.
  split.
  - destruct (exit_status_at_most_two Sample.runtime
                (Sample.started_with ["--fix"]
                   (Sample.machine [] ["ci.yml"] true (inl "none")
                      (Sample.by_tool Sample.clean Sample.clean))))
      as (_ & _ & H & _).
    destruct (H eq_refl) as (Husage & _ & _). exact (Husage eq_refl).
  - destruct (exit_status_at_most_two Sample.runtime
                (Sample.started_with ["-h"]
                   (Sample.machine [] ["ci.yml"] true (inl "none")
                      (Sample.by_tool Sample.clean Sample.clean))))
      as (_ & _ & H & _).
    destruct (H eq_refl) as (_ & Hhelp & _). exact (Hhelp eq_refl).
Defined.

(** X4 at a yamllint that exits with 0 and writes to both streams. *)
Lemma run_command_success_drops_stderr_witness :
  run_command Sample.runtime
    (Sample.machine [] [] false (inl "none")
       (Sample.by_tool (Completed 0 "ok" "warning: deprecated option")
          Sample.clean))
    [VStr "yamllint"; VStr "ci.yml"] true
  = (inr "ok",
     [Print "🔧 Running: yamllint ci.yml";
      Subprocess [VStr "yamllint"; VStr "ci.yml"]]).
Proof.
  exact (proj1 (run_command_success_drops_stderr Sample.runtime
                  (Sample.machine [] [] false (inl "none")
                     (Sample.by_tool (Completed 0 "ok" "warning: deprecated option")
                        Sample.clean))
                  [VStr "yamllint"; VStr "ci.yml"] true
                  "ok" "warning: deprecated option" "yamllint ci.yml"
                  eq_refl (fun _ => eq_refl))).
Defined.

(** X6 at an actionlint command that holds a number. *)
Lemma verbose_join_failure_skips_subprocess_witness :
  run_command Sample.runtime
    (Sample.machine [] [] false (inl "none")
       (Sample.by_tool Sample.clean Sample.clean))
    [VStr "actionlint"; VInt 3; VStr "ci.yml"] true
  = (inr "Error: sequence item 1: expected str instance, int found",
     [Print "❌ Unexpected error running command: sequence item 1: expected str instance, int found"]).
Proof.
  exact (proj1 (verbose_join_failure_skips_subprocess Sample.runtime
                  (Sample.machine [] [] false (inl "none")
                     (Sample.by_tool Sample.clean Sample.clean))
                  [VStr "actionlint"; VInt 3; VStr "ci.yml"]
                  "sequence item 1: expected str instance, int found" eq_refl)).
Defined.

(** X7 at a text that holds the word inside a file name. *)
Lemma yamllint_flag_iff_mentions_witness :
  judge_yamllint "terror.yml looks fine" false = true.
Proof.
  apply (proj2 (yamllint_flag_iff_mentions "terror.yml looks fine" false)).
  right. exists "t", "error", ".yml looks fine". split; [reflexivity|].
  repeat (apply PyStr.casing_cons; [left; reflexivity|]).
  apply PyStr.casing_nil.
Defined.

(** X8 at a yamllint that exits with 1 and reports a warning only. *)
Lemma yamllint_exit_code_ignored_witness :
  yamllint_text Sample.runtime
    (Sample.machine [] ["ci.yml"] true (inl "none")
       (Sample.by_tool (Completed 1 "1:1 warning" " too long") Sample.clean))
    Sample.plain DEFAULT_CONFIG "ci.yml"
  = "1:1 warning too long".
Proof.
  exact (proj1 (yamllint_exit_code_ignored Sample.runtime
                  (Sample.machine [] ["ci.yml"] true (inl "none")
                     (Sample.by_tool (Completed 1 "1:1 warning" " too long")
                        Sample.clean))
                  Sample.plain DEFAULT_CONFIG "ci.yml" _ 1%Z
                  "1:1 warning" " too long" eq_refl eq_refl)).
Defined.







(** X16 at an empty document, which parses to [None]. *)
Lemma non_mapping_document_falls_back_witness :
  load_config Sample.runtime
    (Sample.machine [] [] false (inr VNone)
       (Sample.by_tool Sample.clean Sample.clean))
    (Some "pyalint.yml")
  = (inr DEFAULT_CONFIG,
     [Print "⚠️ Error loading config file: 'NoneType' object is not a mapping";
      Print "Using default configuration."]).
Proof.
  refine (non_mapping_document_falls_back Sample.runtime
            (Sample.machine [] [] false (inr VNone)
               (Sample.by_tool Sample.clean Sample.clean))
            "pyalint.yml" VNone eq_refl eq_refl _).
  intros d H. discriminate H.
Defined.

(** X18 at a document whose 'yamllint' section only extends a preset. *)
Lemma section_without_rules_drops_default_rule_witness :
  yamllint_cmd Sample.runtime "ci.yml"
    (resolved_config Sample.runtime
       (Sample.machine [] [] false
          (inr (VDict [("yamllint", VDict [("extends", VStr "relaxed")])]))
          (Sample.by_tool Sample.clean Sample.clean))
       (Some "pyalint.yml"))
  = inr [VStr "yamllint"; VStr "-d"; VStr "{extends: default, rules: {}}";
         VStr "ci.yml"].
Proof.
  refine (proj1 (section_without_rules_drops_default_rule Sample.runtime
                   (Sample.machine [] [] false
                      (inr (VDict [("yamllint", VDict [("extends", VStr "relaxed")])]))
                      (Sample.by_tool Sample.clean Sample.clean))
                   "pyalint.yml" "ci.yml"
                   [("yamllint", VDict [("extends", VStr "relaxed")])]
                   [("extends", VStr "relaxed")]
                   eq_refl eq_refl _ eq_refl eq_refl)).
  unfold dict_wf. simpl. constructor; [intros [] | constructor].
Defined.

(** X19 at the flags given as the one string [-color]. *)
Lemma string_flags_are_split_witness :
  actionlint_cmd "ci.yml" [("actionlint", VDict [("flags", VStr "-color")])]
    false false
  = inr [VStr "actionlint"; VStr "-"; VStr "c"; VStr "o"; VStr "l"; VStr "o";
         VStr "r"; VStr "ci.yml"].
Proof.
  exact (proj1 (string_flags_are_split
                  [("actionlint", VDict [("flags", VStr "-color")])]
                  [("flags", VStr "-color")] "-color" "ci.yml" false false
                  eq_refl eq_refl)).
Defined.


